(** * Remote Docker Manager: the listing, log and lifecycle engine of main.go

    A shallow embedding of the parts of [main.go] that turn remote command
    output into records and that decide which remote commands are issued,
    followed by the properties the specification states about them.

    Modelling conventions.
    - A Go [string] is a sequence of bytes; it is a [string] of [ascii] here.
    - The functions of Go's [strings] package are modelled on bytes, along
      their ASCII paths: [TrimSpace] removes the six bytes of Go's
      [asciiSpace] table and [ToLower] maps [A-Z] to [a-z].  On text that
      holds bytes from 128 on, Go also trims the white space runes outside
      ASCII (U+0085, U+00A0, U+1680, U+2000 to U+200A, ...) when one stands at
      an end of the text, and lowers the letters outside ASCII; none of these
      lowers to [u] or [p], so the run-state test reads the same.  [Split],
      [Index] and [Contains] are byte-wise in Go as they are here.
    - A Go slice is a [slice]: the [nil] slice and an allocated slice are kept
      apart, both have a length.
    - An [error] is its message ([err.Error()]); [nil] is [None].
    - Indexing a slice out of range panics in Go; a computation that can panic
      returns an [option], [None] being the panic.
    - What the program writes to its own log or standard output
      ([log.Printf], [fmt.Println]) and the response headers are left out. *)

From Stdlib Require Import Bool Arith Lia List Ascii String.
Import ListNotations.

Open Scope string_scope.
Open Scope list_scope.
Open Scope nat_scope.

(** Concatenation of Go strings, [a + b]. *)
Infix "^^" := String.append (at level 60, right associativity).

(** ** Go's [strings] package, on bytes *)

Module strings.

(** The bytes for which Go's [asciiSpace] table holds 1:
    ['\t'], ['\n'], ['\v'], ['\f'], ['\r'] and [' ']. *)
Definition asciiSpace (c : ascii) : bool :=
  let n := nat_of_ascii c in
  ((9 <=? n) && (n <=? 13)) || (n =? 32).

(** Leading bytes of [s] dropped while they are spaces: the first loop of
    [TrimSpace], which moves [start] forward. *)
Fixpoint trimStart (s : string) : string :=
  match s with
  | EmptyString => EmptyString
  | String c rest => if asciiSpace c then trimStart rest else s
  end.

(** Trailing bytes of [s] dropped while they are spaces: the second loop of
    [TrimSpace], which moves [stop] backward. *)
Fixpoint trimStop (s : string) : string :=
  match s with
  | EmptyString => EmptyString
  | String c rest =>
      match trimStop rest with
      | EmptyString => if asciiSpace c then EmptyString else String c EmptyString
      | kept => String c kept
      end
  end.

(** [strings.TrimSpace]: the slice [s[start:stop]]. *)
Definition TrimSpace (s : string) : string := trimStop (trimStart s).

(** [unicode.ToLower] on one ASCII byte. *)
Definition lowerByte (c : ascii) : ascii :=
  let n := nat_of_ascii c in
  if (65 <=? n) && (n <=? 90) then ascii_of_nat (n + 32) else c.

(** [strings.ToLower]. *)
Fixpoint ToLower (s : string) : string :=
  match s with
  | EmptyString => EmptyString
  | String c rest => String (lowerByte c) (ToLower rest)
  end.

(** [strings.HasPrefix s prefix]. *)
Fixpoint HasPrefix (s prefix : string) : bool :=
  match prefix, s with
  | EmptyString, _ => true
  | String _ _, EmptyString => false
  | String p prefix', String c s' => Ascii.eqb c p && HasPrefix s' prefix'
  end.

(** [strings.Index s substr]: the byte offset of the first occurrence of
    [substr] in [s]; Go's [-1] is [None]. *)
Fixpoint Index (s substr : string) : option nat :=
  if HasPrefix s substr then Some 0
  else match s with
       | EmptyString => None
       | String _ rest =>
           match Index rest substr with
           | Some m => Some (S m)
           | None => None
           end
       end.

(** [strings.Contains s substr], which is [Index(s, substr) >= 0]. *)
Definition Contains (s substr : string) : bool :=
  match Index s substr with
  | Some _ => true
  | None => false
  end.

(** The slice expressions [s[:m]] and [s[m:]]. *)
Fixpoint sliceTo (m : nat) (s : string) : string :=
  match m, s with
  | S m', String c rest => String c (sliceTo m' rest)
  | _, _ => EmptyString
  end.

Fixpoint sliceFrom (m : nat) (s : string) : string :=
  match m, s with
  | S m', String _ rest => sliceFrom m' rest
  | _, _ => s
  end.

(** [explode]: one string per byte, the result of [Split] with an empty
    separator on ASCII text. *)
Fixpoint explode (s : string) : list string :=
  match s with
  | EmptyString => []
  | String c rest => String c EmptyString :: explode rest
  end.

(** The loop of [genSplit] for a non-empty separator: cut at the first
    occurrence, go on with what follows it, and end with the remainder.  The
    loop of the source runs at most [Count(s, sep)] times; [fuel] bounds it
    here and [length s] is always enough ([genSplit_fuel] below). *)
Fixpoint genSplit (fuel : nat) (s sep : string) : list string :=
  match fuel with
  | 0 => [s]
  | S fuel' =>
      match Index s sep with
      | None => [s]
      | Some m => sliceTo m s :: genSplit fuel' (sliceFrom (m + length sep) s) sep
      end
  end.

(** [strings.Split s sep]. *)
Definition Split (s sep : string) : list string :=
  match sep with
  | EmptyString => explode s
  | _ => genSplit (length s) s sep
  end.

End strings.

(** ** Slices *)

Inductive slice (A : Type) : Type :=
| nilSlice : slice A                      (* [var xs []A] *)
| makeSlice (items : list A) : slice A.   (* allocated, possibly empty *)

Arguments nilSlice {A}.
Arguments makeSlice {A} items.

Definition elems {A : Type} (xs : slice A) : list A :=
  match xs with
  | nilSlice => []
  | makeSlice items => items
  end.

(** [len(xs)]. *)
Definition len {A : Type} (xs : slice A) : nat := List.length (elems xs).

(** [append(xs, x)]. *)
Definition append {A : Type} (xs : slice A) (x : A) : slice A :=
  makeSlice (elems xs ++ [x]).

(** [xs] with the records [more] appended one by one. *)
Definition extend {A : Type} (xs : slice A) (more : list A) : slice A :=
  match more with
  | [] => xs
  | _ => makeSlice (elems xs ++ more)
  end.

(** [xs[i]]; [None] is the index-out-of-range panic. *)
Definition at_index {A : Type} (xs : list A) (i : nat) : option A := nth_error xs i.

(** ** Data model *)

Record ServerConfig : Type := {
  Host : string;
  Port : string;
  Username : string;
  Password : string
}.

Record Container : Type := {
  ID : string;
  Name : string;
  Image : string;
  Status : string;
  State : string;
  Created : string;
  Ports : string
}.

Record ContainerLog : Type := { Log : string }.

Record DockerManager : Type := { config : ServerConfig }.

(** ** The output parsers *)

(** The Go string literal of one line feed (backslash n). *)
Definition newline : string := String (ascii_of_nat 10) EmptyString.

Definition getStateFromStatus (status : string) : string :=
  if strings.Contains (strings.ToLower status) "up" then "running" else "stopped".

(** [container.Ports = v] on a record value. *)
Definition setPorts (c : Container) (v : string) : Container :=
  {| ID := ID c; Name := Name c; Image := Image c; Status := Status c;
     State := State c; Created := Created c; Ports := v |}.

(** The body of the [for _, line := range lines] loop of [GetContainers]
    (lines 140-162), as a function of the slice built so far. *)
Definition containersLoopBody (containers : slice Container) (line : string)
  : option (slice Container) :=
  let line := strings.TrimSpace line in
  if String.eqb line "" then Some containers
  else
    let parts := strings.Split line "|" in
    if 5 <=? List.length parts then
      match at_index parts 0, at_index parts 1, at_index parts 2,
            at_index parts 3, at_index parts 4 with
      | Some p0, Some p1, Some p2, Some p3, Some p4 =>
          let container :=
            {| ID := strings.TrimSpace p0;
               Name := strings.TrimSpace p1;
               Image := strings.TrimSpace p2;
               Status := strings.TrimSpace p3;
               State := getStateFromStatus (strings.TrimSpace p3);
               Created := strings.TrimSpace p4;
               Ports := "" |} in
          if 5 <? List.length parts then
            match at_index parts 5 with
            | Some p5 =>
                Some (append containers (setPorts container (strings.TrimSpace p5)))
            | None => None
            end
          else Some (append containers container)
      | _, _, _, _, _ => None
      end
    else Some containers.

(** A [for ... range] loop over [lines] whose body can panic. *)
Fixpoint rangeLoop {A B : Type} (body : B -> A -> option B) (acc : B) (lines : list A)
  : option B :=
  match lines with
  | [] => Some acc
  | line :: rest =>
      match body acc line with
      | Some acc' => rangeLoop body acc' rest
      | None => None
      end
  end.

(** Lines 137-164 of [GetContainers]: from the structured listing's output to
    the slice returned. *)
Definition parseContainers (formattedOutput : string) : option (slice Container) :=
  let lines := strings.Split formattedOutput newline in
  rangeLoop containersLoopBody nilSlice lines.

(** The body of the loop of [LogContainers] (lines 93-107). *)
Definition logsLoopBody (containers : slice ContainerLog) (line : string)
  : option (slice ContainerLog) :=
  let line := strings.TrimSpace line in
  if String.eqb line "" then Some containers
  else
    let parts := line in
    if 1 <=? String.length parts then
      let container := {| Log := parts |} in
      Some (append containers container)
    else Some containers.

(** Lines 90-109 of [LogContainers]. *)
Definition parseLogs (formattedOutput : string) : option (slice ContainerLog) :=
  let lines := strings.Split formattedOutput newline in
  rangeLoop logsLoopBody nilSlice lines.

(** ** The remote session gateway and the service *)

(** What one transport round trip of [executeSSHCommand] can come to: the
    dial fails, the session cannot be opened, the command runs and fails
    (with what it wrote to standard error), or it runs and succeeds. *)
Inductive sshOutcome : Type :=
| DialFailed (err : string)
| NewSessionFailed (err : string)
| RunFailed (err stderr : string)
| RunSucceeded (stdout : string).

(** An [error] value: [None] is [nil], [Some msg] has [Error() = msg]. *)
Definition error : Type := option string.

(** A request as a handler reads it: the method, the body as
    [json.Decode] reads it into a [ServerConfig] ([None] when decoding fails)
    and the route variables of [mux.Vars]. *)
Record Request : Type := {
  Method : string;
  Body : option ServerConfig;
  Vars : list (string * string)
}.

(** [vars[key]] on a Go map: the zero value when the key is absent. *)
Fixpoint lookupVar (vars : list (string * string)) (key : string) : string :=
  match vars with
  | [] => EmptyString
  | (k, v) :: rest => if String.eqb k key then v else lookupVar rest key
  end.

(** The values put in the JSON objects the handlers encode. *)
Inductive jsonValue : Type :=
| JBool (b : bool)
| JString (s : string)
| JInt (n : nat)
| JContainers (cs : slice Container)
| JLogs (ls : slice ContainerLog).

(** What a handler writes: a JSON object (keys in the order of the source's
    map literal) or the plain-text reply of [http.Error]. *)
Inductive Response : Type :=
| EncodeJSON (fields : list (string * jsonValue))
| HttpError (msg : string) (code : nat).

Definition StatusMethodNotAllowed : nat := 405.

(** The command strings of the source. *)
Definition cmdWhichDocker : string := "which docker".
Definition cmdDockerInfo : string := "docker info".
Definition cmdDockerPs : string := "docker ps -a".
Definition cmdDockerPsFormat : string :=
  "docker ps -a --format '{{.ID}}|{{.Names}}|{{.Image}}|{{.Status}}|{{.CreatedAt}}|{{.Ports}}'".
Definition cmdDockerLogs (containerId : string) : string :=
  "docker logs  --tail 20 " ^^ containerId ^^ " 2>&1 | grep -v '^$'".
Definition cmdSSHTest : string := "whoami && echo 'SSH connection successful'".
Definition cmdDockerVersion : string := "docker --version".

Section Engine.

(** The remote side: a state of its own and what one round trip (descriptor,
    command) comes to in that state.  Nothing is assumed of it. *)
Variable Transport : Type.
Variable sshRound : Transport -> ServerConfig -> string -> sshOutcome * Transport.

(** The process state: the global [dockerManager] pointer, the remote side,
    and the journal of the commands handed to [executeSSHCommand], each with
    the descriptor it was sent under, oldest first. *)
Record World : Type := {
  dockerManager : option DockerManager;
  remote : Transport;
  issued : list (ServerConfig * string)
}.

(** Computations over the process state; [None] is a Go panic. *)
Definition M (A : Type) : Type := World -> option (A * World).

Definition ret {A : Type} (a : A) : M A := fun w => Some (a, w).

Definition bind {A B : Type} (m : M A) (k : A -> M B) : M B :=
  fun w =>
    match m w with
    | Some (a, w') => k a w'
    | None => None
    end.

Definition panic {A : Type} : M A := fun _ => None.

(** A pure computation that may panic, run inside [M]. *)
Definition orPanic {A : Type} (o : option A) : M A :=
  match o with
  | Some a => ret a
  | None => panic
  end.

Definition getDockerManager : M (option DockerManager) :=
  fun w => Some (dockerManager w, w).

Definition setDockerManager (dm : DockerManager) : M unit :=
  fun w => Some (tt, {| dockerManager := Some dm; remote := remote w; issued := issued w |}).

Notation "x <- m ;; k" := (bind m (fun x => k))
  (at level 61, m at next level, right associativity).
Notation "' p <- m ;; k" := (bind m (fun x => let 'p := x in k))
  (at level 61, p pattern, m at next level, right associativity).

(** [executeSSHCommand] (lines 40-79): one fresh connection and session per
    call; every failure comes back as the empty output and an error. *)
Definition executeSSHCommand (dm : DockerManager) (command : string) : M (string * error) :=
  fun w =>
    let address := Host (config dm) ^^ ":" ^^ Port (config dm) in
    let (outcome, remote') := sshRound (remote w) (config dm) command in
    let w' := {| dockerManager := dockerManager w;
                 remote := remote';
                 issued := issued w ++ [(config dm, command)] |} in
    match outcome with
    | DialFailed err =>
        Some ((EmptyString, Some ("SSH connection to " ^^ address ^^ " failed: " ^^ err)), w')
    | NewSessionFailed err =>
        Some ((EmptyString, Some ("SSH session creation failed: " ^^ err)), w')
    | RunFailed err errorOutput =>
        if negb (String.eqb errorOutput "") then
          Some ((EmptyString,
                 Some ("command '" ^^ command ^^ "' failed: " ^^ err
                       ^^ ", stderr: " ^^ errorOutput)), w')
        else
          Some ((EmptyString, Some ("command '" ^^ command ^^ "' failed: " ^^ err)), w')
    | RunSucceeded output => Some ((output, None), w')
    end.

(** The process state after [command] was handed to the gateway under the
    descriptor of [dm]. *)
Definition afterCommand (w : World) (dm : DockerManager) (command : string)
  : World :=
  {| dockerManager := dockerManager w;
     remote := snd (sshRound (remote w) (config dm) command);
     issued := issued w ++ [(config dm, command)] |}.

(** [LogContainers] (lines 80-110). *)
Definition LogContainers (dm : DockerManager) (containerId : string)
  : M (slice ContainerLog * error) :=
  '(_, err) <- executeSSHCommand dm cmdWhichDocker ;;
  match err with
  | Some e => ret (makeSlice [], Some ("Docker is not installed or not in PATH: " ^^ e))
  | None =>
      '(formattedOutput, err) <- executeSSHCommand dm (cmdDockerLogs containerId) ;;
      match err with
      | Some e => ret (makeSlice [], Some ("Docker ps formatted command failed: " ^^ e))
      | None =>
          containers <- orPanic (parseLogs formattedOutput) ;;
          ret (containers, None)
      end
  end.

(** [GetContainers] (lines 112-165). *)
Definition GetContainers (dm : DockerManager) : M (slice Container * error) :=
  '(_, err) <- executeSSHCommand dm cmdWhichDocker ;;
  match err with
  | Some e => ret (makeSlice [], Some ("Docker is not installed or not in PATH: " ^^ e))
  | None =>
      '(_, err) <- executeSSHCommand dm cmdDockerInfo ;;
      match err with
      | Some e =>
          ret (makeSlice [],
               Some ("Docker daemon is not running or permission denied: " ^^ e))
      | None =>
          '(output, err) <- executeSSHCommand dm cmdDockerPs ;;
          match err with
          | Some e => ret (makeSlice [], Some ("Docker ps command failed: " ^^ e))
          | None =>
              if String.eqb (strings.TrimSpace output) "" then
                ret (makeSlice [], Some "Docker ps returned empty output")
              else
                '(formattedOutput, err) <- executeSSHCommand dm cmdDockerPsFormat ;;
                match err with
                | Some e =>
                    ret (makeSlice [], Some ("Docker ps formatted command failed: " ^^ e))
                | None =>
                    containers <- orPanic (parseContainers formattedOutput) ;;
                    ret (containers, None)
                end
          end
      end
  end.

(** The lifecycle methods (lines 174-192): the command's error, as it is. *)
Definition StartContainer (dm : DockerManager) (containerID : string) : M error :=
  '(_, err) <- executeSSHCommand dm ("docker start " ^^ containerID) ;;
  ret err.

Definition StopContainer (dm : DockerManager) (containerID : string) : M error :=
  '(_, err) <- executeSSHCommand dm ("docker stop " ^^ containerID) ;;
  ret err.

Definition RestartContainer (dm : DockerManager) (containerID : string) : M error :=
  '(_, err) <- executeSSHCommand dm ("docker restart " ^^ containerID) ;;
  ret err.

Definition RemoveContainer (dm : DockerManager) (containerID : string) : M error :=
  '(_, err) <- executeSSHCommand dm ("docker rm -f " ^^ containerID) ;;
  ret err.

(** ** The handlers *)

(** [config.Port = v] on a record value. *)
Definition setPort (c : ServerConfig) (v : string) : ServerConfig :=
  {| Host := Host c; Port := v; Username := Username c; Password := Password c |}.

(** [configHandler] (lines 457-520). *)
Definition configHandler (r : Request) : M Response :=
  if negb (String.eqb (Method r) "POST") then
    ret (HttpError "Method not allowed" StatusMethodNotAllowed)
  else
    match Body r with
    | None =>
        ret (EncodeJSON [("success", JBool false);
                         ("error", JString "Invalid JSON format")])
    | Some config =>
        if String.eqb (Host config) "" || String.eqb (Username config) ""
           || String.eqb (Password config) "" then
          ret (EncodeJSON [("success", JBool false);
                           ("error", JString "Host, username and password are required")])
        else
          let config := if String.eqb (Port config) "" then setPort config "22" else config in
          let dm := {| config := config |} in
          _ <- setDockerManager dm ;;
          '(testOutput, err) <- executeSSHCommand dm cmdSSHTest ;;
          match err with
          | Some e =>
              ret (EncodeJSON [("success", JBool false);
                               ("error", JString ("SSH connection failed: " ^^ e))])
          | None =>
              '(dockerOutput, err) <- executeSSHCommand dm cmdDockerVersion ;;
              match err with
              | Some e =>
                  ret (EncodeJSON [("success", JBool false);
                                   ("error", JString ("Docker is not available: " ^^ e))])
              | None =>
                  ret (EncodeJSON [("success", JBool true);
                                   ("message", JString "Configuration saved successfully")])
              end
          end
    end.

(** [logsHandler] (lines 522-544).  The global pointer is used unchecked: a
    [nil] manager panics at [dm.config]. *)
Definition logsHandler (r : Request) : M Response :=
  let containerId := lookupVar (Vars r) "id" in
  odm <- getDockerManager ;;
  match odm with
  | None => panic
  | Some dm =>
      '(containers, err) <- LogContainers dm containerId ;;
      match err with
      | Some e =>
          ret (EncodeJSON [("success", JBool false);
                           ("error", JString e);
                           ("containers", JContainers (makeSlice []))])
      | None =>
          ret (EncodeJSON [("success", JBool true);
                           ("containers", JLogs containers);
                           ("count", JInt (len containers))])
      end
  end.

(** [containersHandler] (lines 546-579). *)
Definition containersHandler (r : Request) : M Response :=
  odm <- getDockerManager ;;
  match odm with
  | None =>
      ret (EncodeJSON
             [("success", JBool false);
              ("error", JString "No server configuration found. Please configure server first.");
              ("containers", JContainers (makeSlice []))])
  | Some dm =>
      '(containers, err) <- GetContainers dm ;;
      match err with
      | Some e =>
          ret (EncodeJSON [("success", JBool false);
                           ("error", JString e);
                           ("containers", JContainers (makeSlice []))])
      | None =>
          ret (EncodeJSON [("success", JBool true);
                           ("containers", JContainers containers);
                           ("count", JInt (len containers))])
      end
  end.

(** The reply of the handlers to a method call that returned [err]
    (lines 618-629 of [containerActionHandler]). *)
Definition actionReply (err : error) : Response :=
  match err with
  | Some e => EncodeJSON [("success", JBool false); ("error", JString e)]
  | None => EncodeJSON [("success", JBool true);
                        ("message", JString "Action completed successfully")]
  end.

(** [containerActionHandler] (lines 581-630). *)
Definition containerActionHandler (r : Request) : M Response :=
  if negb (String.eqb (Method r) "POST") then
    ret (HttpError "Method not allowed" StatusMethodNotAllowed)
  else
    odm <- getDockerManager ;;
    match odm with
    | None =>
        ret (EncodeJSON [("success", JBool false);
                         ("error", JString "No server configuration found")])
    | Some dm =>
        let containerID := lookupVar (Vars r) "id" in
        let action := lookupVar (Vars r) "action" in
        if String.eqb action "start" then
          err <- StartContainer dm containerID ;; ret (actionReply err)
        else if String.eqb action "stop" then
          err <- StopContainer dm containerID ;; ret (actionReply err)
        else if String.eqb action "restart" then
          err <- RestartContainer dm containerID ;; ret (actionReply err)
        else if String.eqb action "remove" then
          err <- RemoveContainer dm containerID ;; ret (actionReply err)
        else
          ret (EncodeJSON [("success", JBool false);
                           ("error", JString ("Unknown action: " ^^ action))])
    end.

End Engine.

Arguments dockerManager {Transport} w.
Arguments remote {Transport} w.
Arguments issued {Transport} w.

Arguments ret {Transport A} a _.
Arguments bind {Transport A B} m k _.
Arguments executeSSHCommand {Transport} sshRound dm command _.
Arguments afterCommand {Transport} sshRound w dm command.
Arguments LogContainers {Transport} sshRound dm containerId _.
Arguments GetContainers {Transport} sshRound dm _.
Arguments StartContainer {Transport} sshRound dm containerID _.
Arguments StopContainer {Transport} sshRound dm containerID _.
Arguments RestartContainer {Transport} sshRound dm containerID _.
Arguments RemoveContainer {Transport} sshRound dm containerID _.
Arguments configHandler {Transport} sshRound r _.
Arguments logsHandler {Transport} sshRound r _.
Arguments containersHandler {Transport} sshRound r _.
Arguments containerActionHandler {Transport} sshRound r _.

(** ** The specification's reading of the parsers

    The definitions of this part follow the specification's words (its
    section 4.3); the theorems below compare the loops of the source with
    them. *)

(** The record a line with fields [parts] stands for: fields 1 to 5 trimmed,
    the run-state derived from the trimmed status, the ports taken from a
    sixth field when there is one and empty otherwise. *)
Definition recordOfParts (parts : list string) : Container :=
  {| ID := strings.TrimSpace (nth 0 parts EmptyString);
     Name := strings.TrimSpace (nth 1 parts EmptyString);
     Image := strings.TrimSpace (nth 2 parts EmptyString);
     Status := strings.TrimSpace (nth 3 parts EmptyString);
     State := getStateFromStatus (strings.TrimSpace (nth 3 parts EmptyString));
     Created := strings.TrimSpace (nth 4 parts EmptyString);
     Ports := match nth_error parts 5 with
              | Some p => strings.TrimSpace p
              | None => EmptyString
              end |}.

(** The records one line of the structured listing yields: none when it is
    empty after trimming or has fewer than five fields, one otherwise. *)
Definition listingLine (line : string) : list Container :=
  let trimmed := strings.TrimSpace line in
  if String.eqb trimmed "" then []
  else
    let parts := strings.Split trimmed "|" in
    if 5 <=? List.length parts then [recordOfParts parts] else [].

(** The log records of a log-tail output: the trimmed lines that are not
    empty, each one a record. *)
Definition logLines (out : string) : list ContainerLog :=
  map (fun line => {| Log := line |})
      (filter (fun line => negb (String.eqb line ""))
              (map strings.TrimSpace (strings.Split out newline))).

(** [s] contains [sub]: it is some text, then [sub], then some text. *)
Definition occursIn (sub s : string) : Prop :=
  exists before after, s = before ^^ sub ^^ after.

(** [fields] put together again with [sep] between them ([strings.Join]). *)
Fixpoint joinWith (sep : string) (fields : list string) : string :=
  match fields with
  | [] => EmptyString
  | [field] => field
  | field :: rest => field ^^ sep ^^ joinWith sep rest
  end.

(** The two bytes [u] and [p], in either case. *)
Definition isLetterU (c : ascii) : bool := Ascii.eqb c "u" || Ascii.eqb c "U".
Definition isLetterP (c : ascii) : bool := Ascii.eqb c "p" || Ascii.eqb c "P".

(** First and last byte of a string. *)
Definition firstByte (s : string) : option ascii :=
  match s with
  | EmptyString => None
  | String c _ => Some c
  end.

Fixpoint lastByte (s : string) : option ascii :=
  match s with
  | EmptyString => None
  | String c EmptyString => Some c
  | String _ rest => lastByte rest
  end.

Definition isSpaceByte (o : option ascii) : bool :=
  match o with
  | Some c => strings.asciiSpace c
  | None => false
  end.

(** [s] has no white space at its start and none at its end. *)
Definition isTrimmed (s : string) : bool :=
  negb (isSpaceByte (firstByte s)) && negb (isSpaceByte (lastByte s)).

(** Every byte of [s] is white space (so for the empty string). *)
Fixpoint allSpace (s : string) : bool :=
  match s with
  | EmptyString => true
  | String c rest => strings.asciiSpace c && allSpace rest
  end.

(** ** The specification's reading of the service *)

(** The four commands of a listing call, in the order of [GetContainers]. *)
Definition listingCommands : list string :=
  [cmdWhichDocker; cmdDockerInfo; cmdDockerPs; cmdDockerPsFormat].

(** The runtime-unavailable error of the listing and log paths. *)
Definition runtimeUnavailable (cause : string) : string :=
  "Docker is not installed or not in PATH: " ^^ cause.

(** The empty-inventory error of the listing path. *)
Definition emptyInventory : string := "Docker ps returned empty output".

(** The reply to an action verb the handler does not know. *)
Definition unknownActionReply (action : string) : Response :=
  EncodeJSON [("success", JBool false); ("error", JString ("Unknown action: " ^^ action))].

(** The verbs [containerActionHandler] dispatches on. *)
Definition knownAction (action : string) : bool :=
  String.eqb action "start" || String.eqb action "stop"
  || String.eqb action "restart" || String.eqb action "remove".

(** A reply reports success when its object holds [success: true]. *)
Definition reportsSuccess (reply : Response) : bool :=
  match reply with
  | EncodeJSON fields =>
      existsb (fun field =>
                 String.eqb (fst field) "success"
                 && match snd field with
                    | JBool true => true
                    | _ => false
                    end) fields
  | HttpError _ _ => false
  end.

(** The descriptor [configHandler] installs for a posted one: the port
    defaults to 22. *)
Definition installedConfig (posted : ServerConfig) : ServerConfig :=
  if String.eqb (Port posted) "" then setPort posted "22" else posted.

(** ** Example hosts

    Remote sides with no state of their own, each answering a command by
    what it is. *)

Definition scripted (reply : string -> sshOutcome)
  : unit -> ServerConfig -> string -> sshOutcome * unit :=
  fun _ _ command => (reply command, tt).

Definition exampleConfig : ServerConfig :=
  {| Host := "192.168.1.100"; Port := "22"; Username := "root"; Password := "secret" |}.

Definition exampleManager : DockerManager := {| config := exampleConfig |}.

(** The process state before any command, with the given global manager. *)
Definition startWorld (manager : option DockerManager) : World unit :=
  {| dockerManager := manager; remote := tt; issued := [] |}.

(** A host one can log in to, with no docker binary. *)
Definition hostWithoutDocker : unit -> ServerConfig -> string -> sshOutcome * unit :=
  scripted (fun command =>
    if String.eqb command cmdSSHTest then RunSucceeded "root"
    else if String.eqb command cmdWhichDocker then
      RunFailed "Process exited with status 1" ""
    else RunFailed "Process exited with status 127" "bash: docker: command not found").

(** A host with docker installed and its daemon stopped. *)
Definition hostDaemonDown : unit -> ServerConfig -> string -> sshOutcome * unit :=
  scripted (fun command =>
    if String.eqb command cmdSSHTest then RunSucceeded "root"
    else if String.eqb command cmdWhichDocker then RunSucceeded "/usr/bin/docker"
    else if String.eqb command cmdDockerVersion then
      RunSucceeded "Docker version 24.0.7, build afdd53b"
    else RunFailed "Process exited with status 1"
                   "Cannot connect to the Docker daemon at unix:///var/run/docker.sock").

(** A host with docker running and no container: the raw listing prints its
    header, the structured listing prints nothing. *)
Definition hostNoContainers : unit -> ServerConfig -> string -> sshOutcome * unit :=
  scripted (fun command =>
    if String.eqb command cmdDockerPs then
      RunSucceeded "CONTAINER ID   IMAGE     COMMAND   CREATED   STATUS    PORTS     NAMES"
    else if String.eqb command cmdDockerPsFormat then RunSucceeded ""
    else RunSucceeded "ok").

(** A host whose raw listing prints one empty line. *)
Definition hostBlankListing : unit -> ServerConfig -> string -> sshOutcome * unit :=
  scripted (fun command =>
    if String.eqb command cmdDockerPs then RunSucceeded newline
    else RunSucceeded "ok").

Definition listRequest : Request := {| Method := "GET"; Body := None; Vars := [] |}.

Definition actionRequest (method id action : string) : Request :=
  {| Method := method; Body := None; Vars := [("id", id); ("action", action)] |}.

Definition configRequest : Request :=
  {| Method := "POST"; Body := Some exampleConfig; Vars := [] |}.

(** ** Further notions used by the properties *)

(** The byte [c] stands somewhere in [s]. *)
Fixpoint holdsByte (c : ascii) (s : string) : bool :=
  match s with
  | EmptyString => false
  | String x rest => Ascii.eqb x c || holdsByte c rest
  end.

Definition barByte : ascii := "|"%char.
Definition newlineByte : ascii := ascii_of_nat 10.




(** The command a lifecycle verb of [containerActionHandler] runs. *)
Definition lifecycleCommand (action containerID : string) : option string :=
  if String.eqb action "start" then Some ("docker start " ^^ containerID)
  else if String.eqb action "stop" then Some ("docker stop " ^^ containerID)
  else if String.eqb action "restart" then Some ("docker restart " ^^ containerID)
  else if String.eqb action "remove" then Some ("docker rm -f " ^^ containerID)
  else None.

(** The value a reply's object holds under [key]. *)
Fixpoint lookupField (fields : list (string * jsonValue)) (key : string)
  : option jsonValue :=
  match fields with
  | [] => None
  | (k, v) :: rest => if String.eqb k key then Some v else lookupField rest key
  end.

Definition replyField (reply : Response) (key : string) : option jsonValue :=
  match reply with
  | EncodeJSON fields => lookupField fields key
  | HttpError _ _ => None
  end.

(** The commands of a call all went out under one descriptor, that of the
    manager [odm], and [k] at most were added to the journal. *)
Definition journalGrew {Transport : Type} (odm : option DockerManager) (k : nat)
           (w w' : World Transport)
  : Prop :=
  exists added,
    issued w' = issued w ++ added
    /\ List.length added <= k
    /\ Forall (fun entry => odm = Some {| config := fst entry |}) added.

(** A configuration request [configHandler] acts on: a POST whose body
    decodes to a descriptor with a host, a user name and a password. *)
Definition configAcceptable (r : Request) : bool :=
  String.eqb (Method r) "POST"
  && match Body r with
     | Some posted =>
         negb (String.eqb (Host posted) "") && negb (String.eqb (Username posted) "")
         && negb (String.eqb (Password posted) "")
     | None => false
     end.

(** A descriptor posted with no port. *)
Definition postedConfig : ServerConfig :=
  {| Host := "10.0.0.5"; Port := ""; Username := "admin"; Password := "pw" |}.

(** * Properties *)

(** ** The [strings] model *)

Lemma append_empty_r (s : string) : s ^^ "" = s.
Proof. induction s as [|c s IH]; simpl; [reflexivity | now rewrite IH]. Qed.

Lemma append_assoc (a b c : string) : (a ^^ b) ^^ c = a ^^ b ^^ c.
Proof. induction a as [|x a IH]; simpl; [reflexivity | now rewrite IH]. Qed.

Lemma length_append (a b : string) : String.length (a ^^ b) = String.length a + String.length b.
Proof. induction a as [|x a IH]; simpl; [reflexivity | now rewrite IH]. Qed.

Lemma HasPrefix_iff (s prefix : string) :
  strings.HasPrefix s prefix = true <-> exists rest, s = prefix ^^ rest.
Proof.
  revert s; induction prefix as [|p prefix IH]; intros s; simpl.
  - split; [intros _; now exists s | intros _; now destruct s].
  - destruct s as [|c s]; simpl.
    + split; [discriminate | intros [rest H]; discriminate].
    + rewrite andb_true_iff, Ascii.eqb_eq, IH. split.
      * intros [-> [rest ->]]. now exists rest.
      * intros [rest H]. injection H as -> ->. split; [reflexivity | now exists rest].
Qed.

Lemma Index_unfold (s substr : string) :
  strings.Index s substr =
  if strings.HasPrefix s substr then Some 0
  else match s with
       | EmptyString => None
       | String _ rest =>
           match strings.Index rest substr with
           | Some m => Some (S m)
           | None => None
           end
       end.
Proof. destruct s; reflexivity. Qed.

Lemma Index_Some (s substr : string) (m : nat) :
  strings.Index s substr = Some m ->
  exists before after,
    s = before ^^ substr ^^ after /\ String.length before = m /\ before = strings.sliceTo m s
    /\ after = strings.sliceFrom (m + String.length substr) s.
Proof.
  revert m; induction s as [|c s IH]; intros m; rewrite Index_unfold.
  - destruct (strings.HasPrefix "" substr) eqn:E; [|discriminate].
    intros [= <-]. apply HasPrefix_iff in E as [rest E].
    exists "", rest. simpl. destruct substr; [|discriminate]. simpl in *. now subst.
  - destruct (strings.HasPrefix (String c s) substr) eqn:E.
    + intros [= <-]. apply HasPrefix_iff in E as [rest E].
      exists "", rest. simpl. rewrite E. repeat split; try reflexivity.
      clear. induction substr as [|x t IHt]; simpl; [reflexivity | exact IHt].
    + destruct (strings.Index s substr) as [k|] eqn:Ek; [|discriminate].
      intros [= <-]. destruct (IH k eq_refl) as (b & a & Hs & Hl & Hb & Ha).
      exists (String c b), a. simpl. repeat split; congruence.
Qed.

Lemma Index_None (s substr : string) :
  strings.Index s substr = None -> ~ occursIn substr s.
Proof.
  induction s as [|c s IH]; rewrite Index_unfold.
  - destruct (strings.HasPrefix "" substr) eqn:E; [discriminate|].
    intros _ (b & a & H). destruct b; [|discriminate]. simpl in H.
    assert (strings.HasPrefix "" substr = true) by (apply HasPrefix_iff; now exists a).
    congruence.
  - destruct (strings.HasPrefix (String c s) substr) eqn:E; [discriminate|].
    destruct (strings.Index s substr) eqn:Ek; [discriminate|].
    intros _ (b & a & H). destruct b as [|x b]; simpl in H.
    + assert (strings.HasPrefix (String c s) substr = true)
        by (apply HasPrefix_iff; now exists a).
      congruence.
    + injection H as -> ->. apply IH; [reflexivity | now exists b, a].
Qed.

Lemma Contains_iff (s substr : string) :
  strings.Contains s substr = true <-> occursIn substr s.
Proof.
  unfold strings.Contains. destruct (strings.Index s substr) as [m|] eqn:E.
  - split; [intros _ | reflexivity].
    destruct (Index_Some _ _ _ E) as (b & a & H & _). now exists b, a.
  - split; [discriminate | intros H; now apply Index_None in E].
Qed.

Lemma Index_empty_s (sep : string) :
  sep <> "" -> strings.Index "" sep = None.
Proof. destruct sep; [congruence | reflexivity]. Qed.

(** The bound of [genSplit]'s loop is never what stops it: any fuel from
    [length s] on gives the same fields. *)
Lemma genSplit_fuel (sep : string) :
  sep <> "" ->
  forall fuel1 fuel2 s,
    String.length s <= fuel1 -> String.length s <= fuel2 ->
    strings.genSplit fuel1 s sep = strings.genSplit fuel2 s sep.
Proof.
  intros Hsep.
  assert (Hlen : 1 <= String.length sep) by (destruct sep; simpl; [congruence | lia]).
  assert (Hzero : forall fuel s, String.length s = 0 -> strings.genSplit fuel s sep = [s]).
  { intros fuel s Hs. destruct s; [|discriminate].
    destruct fuel; [reflexivity|].
    cbn [strings.genSplit]. now rewrite Index_empty_s. }
  induction fuel1 as [|fuel1 IH]; intros fuel2 s H1 H2.
  - rewrite (Hzero fuel2 s) by lia. reflexivity.
  - destruct fuel2 as [|fuel2].
    + rewrite (Hzero (S fuel1) s) by lia. reflexivity.
    + cbn [strings.genSplit].
      destruct (strings.Index s sep) as [m|] eqn:E; [|reflexivity].
      destruct (Index_Some _ _ _ E) as (b & a & Hs & Hb & _ & Ha).
      assert (String.length s = m + String.length sep + String.length a).
      { rewrite Hs at 1. rewrite !length_append. lia. }
      f_equal. apply IH; rewrite <- Ha; lia.
Qed.

Lemma trimStart_first (s : string) :
  isSpaceByte (firstByte (strings.trimStart s)) = false.
Proof.
  induction s as [|c s IH]; simpl; [reflexivity|].
  destruct (strings.asciiSpace c) eqn:E; [exact IH | simpl; exact E].
Qed.

Lemma trimStop_first (s : string) :
  isSpaceByte (firstByte s) = false ->
  isSpaceByte (firstByte (strings.trimStop s)) = false.
Proof.
  destruct s as [|c s]; simpl; [reflexivity|]. intros E.
  destruct (strings.trimStop s); [rewrite E|]; simpl; exact E.
Qed.

Lemma trimStop_last (s : string) :
  isSpaceByte (lastByte (strings.trimStop s)) = false.
Proof.
  induction s as [|c s IH]; simpl; [reflexivity|].
  destruct (strings.trimStop s) as [|k kept] eqn:E.
  - destruct (strings.asciiSpace c) eqn:Ec; simpl; [reflexivity | exact Ec].
  - exact IH.
Qed.

(** What [TrimSpace] returns has no white space at either end. *)
Lemma TrimSpace_isTrimmed (s : string) : isTrimmed (strings.TrimSpace s) = true.
Proof.
  unfold isTrimmed, strings.TrimSpace.
  rewrite trimStop_first by apply trimStart_first.
  now rewrite trimStop_last.
Qed.

Lemma trimStart_empty_iff (s : string) :
  strings.trimStart s = "" <-> allSpace s = true.
Proof.
  induction s as [|c s IH]; simpl; [tauto|].
  destruct (strings.asciiSpace c); simpl; [exact IH | split; discriminate].
Qed.

Lemma trimStop_empty_iff (s : string) :
  strings.trimStop s = "" <-> allSpace s = true.
Proof.
  induction s as [|c s IH]; simpl; [tauto|].
  destruct (strings.trimStop s) eqn:E.
  - destruct (strings.asciiSpace c); simpl; [|split; discriminate].
    rewrite <- IH. tauto.
  - rewrite andb_true_iff, <- IH. split; [discriminate | intros [_ H]; discriminate].
Qed.

Lemma trimStart_allSpace (s : string) :
  allSpace (strings.trimStart s) = true -> allSpace s = true.
Proof.
  induction s as [|c s IH]; simpl; [tauto|].
  destruct (strings.asciiSpace c) eqn:E; simpl; [exact IH | now rewrite E].
Qed.

(** [TrimSpace] returns the empty string exactly on the strings that are
    empty or all white space. *)
Lemma TrimSpace_empty_iff (s : string) :
  strings.TrimSpace s = "" <-> allSpace s = true.
Proof.
  unfold strings.TrimSpace. rewrite trimStop_empty_iff. split.
  - apply trimStart_allSpace.
  - intros H. apply trimStart_empty_iff in H. now rewrite H.
Qed.

(** The offset [Index] returns is that of the first occurrence. *)
Lemma Index_least (s substr : string) (m : nat) :
  strings.Index s substr = Some m ->
  forall before after, s = before ^^ substr ^^ after -> m <= String.length before.
Proof.
  revert m; induction s as [|c s IH]; intros m; rewrite Index_unfold.
  - destruct (strings.HasPrefix "" substr); [|discriminate]. intros [= <-]. intros; lia.
  - destruct (strings.HasPrefix (String c s) substr) eqn:E; [intros [= <-]; intros; lia|].
    destruct (strings.Index s substr) as [k|] eqn:Ek; [|discriminate].
    intros [= <-] before after H. destruct before as [|x before]; simpl in H.
    + assert (strings.HasPrefix (String c s) substr = true)
        by (apply HasPrefix_iff; now exists after).
      congruence.
    + injection H as -> ->. simpl. apply le_n_S. now apply (IH k eq_refl before after).
Qed.

Lemma genSplit_not_nil (fuel : nat) (s sep : string) : strings.genSplit fuel s sep <> [].
Proof.
  destruct fuel; simpl; [discriminate|].
  destruct (strings.Index s sep); discriminate.
Qed.

(** The fields of [Split], joined with the separator, are the text. *)
Lemma Split_joinWith (s sep : string) :
  sep <> "" -> joinWith sep (strings.Split s sep) = s.
Proof.
  intros Hsep. unfold strings.Split. destruct sep as [|x sep']; [congruence|].
  generalize (String.length s) at 1. intros fuel. revert s.
  induction fuel as [|fuel IH]; intros s; cbn [strings.genSplit]; [reflexivity|].
  destruct (strings.Index s (String x sep')) as [m|] eqn:E; [|reflexivity].
  destruct (Index_Some _ _ _ E) as (b & a & Hs & _ & Hb & Ha).
  specialize (IH (strings.sliceFrom (m + String.length (String x sep')) s)).
  pose proof (genSplit_not_nil fuel (strings.sliceFrom (m + String.length (String x sep')) s)
                               (String x sep')) as Hnil.
  cbn [joinWith].
  destruct (strings.genSplit fuel _ (String x sep')) as [|f fs]; [congruence|].
  rewrite IH, <- Hb, <- Ha. now symmetry.
Qed.

(** No field of [Split] holds the separator. *)
Lemma Split_fields_free (s sep : string) :
  sep <> "" -> Forall (fun field => ~ occursIn sep field) (strings.Split s sep).
Proof.
  intros Hsep. unfold strings.Split. destruct sep as [|x sep']; [congruence|].
  set (sep := String x sep') in *.
  assert (Hgen : forall fuel t, String.length t <= fuel ->
                   Forall (fun field => ~ occursIn sep field) (strings.genSplit fuel t sep)).
  { induction fuel as [|fuel IH]; intros t Ht; cbn [strings.genSplit].
    - constructor; [|constructor]. destruct t; [|simpl in Ht; lia].
      intros (b & a & H). destruct b; discriminate.
    - destruct (strings.Index t sep) as [m|] eqn:E.
      + destruct (Index_Some _ _ _ E) as (b & a & Hs & Hl & Hb & Ha).
        constructor.
        * rewrite <- Hb. intros (b' & a' & H).
          assert (m <= String.length b') as Hle.
          { apply (Index_least _ _ _ E b' (a' ^^ sep ^^ a)).
            rewrite Hs, H, !append_assoc. reflexivity. }
          assert (String.length b = String.length b' + String.length sep + String.length a')
            by (rewrite H, !length_append; lia).
          unfold sep in *; simpl in *; lia.
        * apply IH. rewrite <- Ha.
          assert (String.length t = m + String.length sep + String.length a)
            by (rewrite Hs at 1; rewrite !length_append; lia).
          unfold sep in *; simpl in *; lia.
      + constructor; [|constructor]. now apply Index_None. }
  now apply Hgen.
Qed.

Lemma ToLower_append_inv (s a b : string) :
  strings.ToLower s = a ^^ b ->
  exists a' b', s = a' ^^ b' /\ strings.ToLower a' = a /\ strings.ToLower b' = b.
Proof.
  revert s; induction a as [|x a IH]; intros s H; simpl in H.
  - now exists "", s.
  - destruct s as [|c s]; [discriminate|]. simpl in H. injection H as Hx H.
    destruct (IH s H) as (a' & b' & -> & Ha & Hb).
    exists (String c a'), b'. simpl. now rewrite Hx, Ha.
Qed.

Lemma ToLower_append (a b : string) :
  strings.ToLower (a ^^ b) = strings.ToLower a ^^ strings.ToLower b.
Proof. induction a as [|x a IH]; simpl; [reflexivity | now rewrite IH]. Qed.

Lemma lowerByte_u (c : ascii) : strings.lowerByte c = "u"%char <-> isLetterU c = true.
Proof.
  destruct c as [[] [] [] [] [] [] [] []]; vm_compute; split; (reflexivity || discriminate).
Qed.

Lemma lowerByte_p (c : ascii) : strings.lowerByte c = "p"%char <-> isLetterP c = true.
Proof.
  destruct c as [[] [] [] [] [] [] [] []]; vm_compute; split; (reflexivity || discriminate).
Qed.

(** The lower-case form holds [up] exactly when the text holds a [u] or [U]
    followed by a [p] or [P]. *)
Lemma occursIn_up_ToLower (s : string) :
  occursIn "up" (strings.ToLower s)
  <-> exists before u p after,
      s = before ^^ String u (String p after)
      /\ isLetterU u = true /\ isLetterP p = true.
Proof.
  split.
  - intros (b & a & H). apply ToLower_append_inv in H as (b' & r & -> & Hb & Hr).
    destruct r as [|u [|p a']]; try discriminate. simpl in Hr.
    injection Hr as Hu Hp Ha. exists b', u, p, a'.
    split; [reflexivity|]. now rewrite <- lowerByte_u, <- lowerByte_p.
  - intros (b & u & p & a & -> & Hu & Hp).
    exists (strings.ToLower b), (strings.ToLower a).
    rewrite ToLower_append. simpl.
    apply lowerByte_u in Hu. apply lowerByte_p in Hp. now rewrite Hu, Hp.
Qed.

(** ** The parsers *)

Lemma elems_extend {A : Type} (xs : slice A) (more : list A) :
  elems (extend xs more) = elems xs ++ more.
Proof. destruct more; simpl; [now rewrite app_nil_r | reflexivity]. Qed.

Lemma extend_extend {A : Type} (xs : slice A) (l1 l2 : list A) :
  extend (extend xs l1) l2 = extend xs (l1 ++ l2).
Proof.
  destruct l1 as [|a l1]; [reflexivity|].
  destruct l2 as [|b l2]; simpl; [now rewrite app_nil_r|].
  now rewrite <- app_assoc.
Qed.

Lemma rangeLoop_extend {A B : Type} (body : slice B -> A -> option (slice B))
      (f : A -> list B) :
  (forall acc line, body acc line = Some (extend acc (f line))) ->
  forall lines acc, rangeLoop body acc lines = Some (extend acc (flat_map f lines)).
Proof.
  intros Hbody. induction lines as [|line lines IH]; intros acc; simpl; [reflexivity|].
  now rewrite Hbody, IH, extend_extend.
Qed.

Lemma containersLoopBody_fields (acc : slice Container) (line : string) (parts : list string) :
  strings.Split (strings.TrimSpace line) "|" = parts ->
  strings.TrimSpace line <> "" ->
  (5 <= List.length parts ->
   containersLoopBody acc line = Some (append acc (recordOfParts parts)))
  /\ (List.length parts < 5 -> containersLoopBody acc line = Some acc).
Proof.
  intros Hparts Hne. unfold containersLoopBody.
  apply String.eqb_neq in Hne. rewrite Hne, Hparts. split; intros Hlen.
  - apply Nat.leb_le in Hlen as Hleb. rewrite Hleb.
    destruct parts as [|p0 [|p1 [|p2 [|p3 [|p4 rest]]]]]; simpl in Hlen; try lia.
    destruct rest as [|p5 rest]; reflexivity.
  - apply Nat.leb_gt in Hlen. now rewrite Hlen.
Qed.

Lemma containersLoopBody_listingLine (acc : slice Container) (line : string) :
  containersLoopBody acc line = Some (extend acc (listingLine line)).
Proof.
  unfold listingLine.
  destruct (String.eqb (strings.TrimSpace line) "") eqn:E.
  - unfold containersLoopBody. now rewrite E.
  - apply String.eqb_neq in E.
    destruct (containersLoopBody_fields acc line _ eq_refl E) as [Hge Hlt].
    destruct (5 <=? List.length (strings.Split (strings.TrimSpace line) "|")) eqn:El.
    + apply Nat.leb_le in El. now rewrite Hge.
    + apply Nat.leb_gt in El. now rewrite Hlt.
Qed.

Lemma parseContainers_listingLine (out : string) :
  parseContainers out
  = Some (extend nilSlice (flat_map listingLine (strings.Split out newline))).
Proof.
  unfold parseContainers. apply rangeLoop_extend. apply containersLoopBody_listingLine.
Qed.

Lemma logsLoopBody_line (acc : slice ContainerLog) (line : string) :
  logsLoopBody acc line
  = Some (extend acc (if String.eqb (strings.TrimSpace line) "" then []
                      else [{| Log := strings.TrimSpace line |}])).
Proof.
  unfold logsLoopBody. destruct (String.eqb (strings.TrimSpace line) "") eqn:E.
  - reflexivity.
  - destruct (strings.TrimSpace line); [discriminate | reflexivity].
Qed.

Lemma logLines_flat_map (lines : list string) :
  flat_map (fun line => if String.eqb (strings.TrimSpace line) "" then []
                        else [{| Log := strings.TrimSpace line |}]) lines
  = map (fun line => {| Log := line |})
        (filter (fun line => negb (String.eqb line "")) (map strings.TrimSpace lines)).
Proof.
  induction lines as [|line lines IH]; simpl; [reflexivity|].
  rewrite IH. now destruct (String.eqb (strings.TrimSpace line) "").
Qed.

Lemma parseLogs_logLines (out : string) :
  parseLogs out = Some (extend nilSlice (logLines out)).
Proof.
  unfold parseLogs, logLines. rewrite <- logLines_flat_map.
  apply rangeLoop_extend. apply logsLoopBody_line.
Qed.

Lemma Split_empty_bar : strings.Split "" "|" = [""].
Proof. reflexivity. Qed.

Lemma parsed_record_origin (out : string) (s : slice Container) (c : Container) :
  parseContainers out = Some s -> In c (elems s) ->
  exists line,
    In line (strings.Split out newline)
    /\ strings.TrimSpace line <> ""
    /\ 5 <= List.length (strings.Split (strings.TrimSpace line) "|")
    /\ c = recordOfParts (strings.Split (strings.TrimSpace line) "|").
Proof.
  rewrite parseContainers_listingLine. intros [= <-]. rewrite elems_extend. simpl.
  rewrite in_flat_map. intros (line & Hin & Hc). exists line. split; [exact Hin|].
  unfold listingLine in Hc.
  destruct (String.eqb (strings.TrimSpace line) "") eqn:E; [contradiction|].
  destruct (5 <=? List.length (strings.Split (strings.TrimSpace line) "|")) eqn:El;
    [|contradiction].
  destruct Hc as [<-|[]]. apply String.eqb_neq in E. apply Nat.leb_le in El. auto.
Qed.

(** C1. Listing parse.  In the loop of [GetContainers], a line that is not
    empty after trimming and splits on the bar into at least five fields adds
    exactly one record, with identifier, name, image, status and created
    taken (trimmed) from fields 1 to 5; its ports are empty when there is no
    sixth field and are the trimmed sixth field when there is one.  A line
    with fewer than five fields adds nothing and the loop goes on.  The whole
    parse never fails: its records are those of the lines, in order. *)
Theorem listing_parse_records :
  (forall (acc : slice Container) (line : string) (parts : list string),
      strings.Split (strings.TrimSpace line) "|" = parts ->
      strings.TrimSpace line <> "" ->
      5 <= List.length parts ->
      exists container,
        containersLoopBody acc line = Some (append acc container)
        /\ len (append acc container) = S (len acc)
        /\ ID container = strings.TrimSpace (nth 0 parts "")
        /\ Name container = strings.TrimSpace (nth 1 parts "")
        /\ Image container = strings.TrimSpace (nth 2 parts "")
        /\ Status container = strings.TrimSpace (nth 3 parts "")
        /\ Created container = strings.TrimSpace (nth 4 parts "")
        /\ (List.length parts = 5 -> Ports container = "")
        /\ (forall p5, nth_error parts 5 = Some p5 ->
            Ports container = strings.TrimSpace p5))
  /\ (forall (acc : slice Container) (line : string),
         strings.TrimSpace line <> "" ->
         List.length (strings.Split (strings.TrimSpace line) "|") < 5 ->
         containersLoopBody acc line = Some acc)
  /\ (forall out : string,
         exists containers,
           parseContainers out = Some containers
           /\ elems containers = flat_map listingLine (strings.Split out newline))
  /\ parseContainers ("abc123|web|nginx:latest|Up 2 hours|2024-01-01|80/tcp" ^^ newline)
     = Some (makeSlice [ {| ID := "abc123"; Name := "web"; Image := "nginx:latest";
                            Status := "Up 2 hours"; State := "running";
                            Created := "2024-01-01"; Ports := "80/tcp" |} ]).
Proof.
  split; [|split; [|split]].
  - intros acc line parts Hparts Hne Hlen.
    destruct (containersLoopBody_fields acc line parts Hparts Hne) as [Hge _].
    exists (recordOfParts parts). split; [now apply Hge|].
    split; [unfold len, append; simpl; rewrite length_app; simpl; lia|].
    repeat (split; [reflexivity|]). split.
    + intros H5. unfold recordOfParts; cbn [Ports].
      destruct (nth_error parts 5) eqn:E; [|reflexivity].
      assert (nth_error parts 5 <> None) by congruence.
      apply nth_error_Some in H. lia.
    + intros p5 H5. unfold recordOfParts; cbn [Ports]. now rewrite H5.
  - intros acc line Hne Hlen.
    now destruct (containersLoopBody_fields acc line _ eq_refl Hne) as [_ Hlt]; apply Hlt.
  - intros out. eexists. split; [apply parseContainers_listingLine|].
    now rewrite elems_extend.
  - vm_compute. reflexivity.
Qed.

Lemma listing_parse_records_witness :
  exists container,
    containersLoopBody nilSlice "abc123|web|nginx:latest|Up 2 hours|2024-01-01|80/tcp"
    = Some (append nilSlice container)
    /\ ID container = "abc123"
    /\ Created container = "2024-01-01"
    /\ Ports container = "80/tcp".
Proof.
  destruct (proj1 listing_parse_records nilSlice
                  "abc123|web|nginx:latest|Up 2 hours|2024-01-01|80/tcp" _ eq_refl)
    as (container & Hbody & _ & Hid & _ & _ & _ & Hcreated & _ & Hports).
  - vm_compute. discriminate.
  - vm_compute. lia.
  - exists container. split; [exact Hbody|].
    rewrite Hid, Hcreated, (Hports "80/tcp" eq_refl). repeat split.
Defined.

(** C2. Run-state.  The state derived from a status text is [running]
    exactly when the lower-case form of the text contains [up], that is when
    the text holds a [u] or [U] followed by a [p] or [P], and [stopped]
    exactly when it does not; the three statuses of the specification derive
    running, running and stopped. *)
Theorem run_state_from_status :
  (forall status : string,
      (getStateFromStatus status = "running"
       <-> occursIn "up" (strings.ToLower status))
      /\ (getStateFromStatus status = "stopped"
          <-> ~ occursIn "up" (strings.ToLower status))
      /\ (getStateFromStatus status = "running"
          <-> exists before u p after,
              status = before ^^ String u (String p after)
              /\ isLetterU u = true /\ isLetterP p = true))
  /\ getStateFromStatus "Up 3 days" = "running"
  /\ getStateFromStatus "UP" = "running"
  /\ getStateFromStatus "Exited (0) 2 hours ago" = "stopped".
Proof.
  split; [|repeat split; reflexivity].
  intros status. rewrite <- occursIn_up_ToLower. unfold getStateFromStatus.
  destruct (strings.Contains (strings.ToLower status) "up") eqn:E.
  - apply Contains_iff in E. repeat split; try tauto; try discriminate.
  - assert (~ occursIn "up" (strings.ToLower status)) as N
        by (rewrite <- Contains_iff; congruence).
    repeat split; try tauto; try discriminate.
Qed.

(** C8. Log parse.  The loop of [LogContainers] never fails and returns one
    record for each line that is not empty after trimming, holding that
    trimmed line as it is, in the order of the lines; the output of the
    specification's scenario gives the two records [line1] and [line2]. *)
Theorem log_parse_records :
  (forall out : string,
      exists containers,
        parseLogs out = Some containers
        /\ elems containers = logLines out)
  /\ parseLogs ("line1" ^^ newline ^^ newline ^^ "line2" ^^ newline)
     = Some (makeSlice [ {| Log := "line1" |}; {| Log := "line2" |} ]).
Proof.
  split; [|vm_compute; reflexivity].
  intros out. eexists. split; [apply parseLogs_logLines|].
  now rewrite elems_extend.
Qed.

(** C9. Empty identifier.  A line with at least five fields whose first
    field is empty or all white space still adds a record, and that record's
    identifier is the empty string; the record is among those the whole parse
    returns. *)
Theorem empty_identifier_passed_through
        (acc : slice Container) (line : string) (parts : list string) (p0 : string) :
  strings.Split (strings.TrimSpace line) "|" = parts ->
  5 <= List.length parts ->
  nth_error parts 0 = Some p0 ->
  allSpace p0 = true ->
  exists container,
    containersLoopBody acc line = Some (append acc container)
    /\ ID container = ""
    /\ forall out containers,
        In line (strings.Split out newline) ->
        parseContainers out = Some containers ->
        In container (elems containers).
Proof.
  intros Hparts Hlen H0 Hsp.
  assert (Hne : strings.TrimSpace line <> "").
  { intros E. rewrite E, Split_empty_bar in Hparts. subst parts. simpl in Hlen. lia. }
  destruct (containersLoopBody_fields acc line parts Hparts Hne) as [Hge _].
  exists (recordOfParts parts). split; [now apply Hge|]. split.
  - simpl. destruct parts as [|q0 rest]; [discriminate|]. simpl in *.
    injection H0 as ->. now apply TrimSpace_empty_iff.
  - intros out containers Hin. rewrite parseContainers_listingLine. intros [= <-].
    rewrite elems_extend. simpl. apply in_flat_map. exists line. split; [exact Hin|].
    unfold listingLine. apply String.eqb_neq in Hne. rewrite Hne, Hparts.
    apply Nat.leb_le in Hlen. rewrite Hlen. now left.
Qed.

Lemma empty_identifier_passed_through_witness :
  exists container,
    containersLoopBody nilSlice "|web|nginx|Up 2 hours|2024-01-01"
    = Some (append nilSlice container)
    /\ ID container = ""
    /\ forall out containers,
        In "|web|nginx|Up 2 hours|2024-01-01" (strings.Split out newline) ->
        parseContainers out = Some containers ->
        In container (elems containers).
Proof.
  apply (empty_identifier_passed_through
           nilSlice "|web|nginx|Up 2 hours|2024-01-01"
           [""; "web"; "nginx"; "Up 2 hours"; "2024-01-01"] "").
  - vm_compute. reflexivity.
  - simpl. lia.
  - reflexivity.
  - reflexivity.
Defined.

(** C10. Trimmed fields.  Every record the listing parse returns comes from
    one line of the output: each of its fields is the white-space-trimmed
    field of that line, so none starts or ends with white space, and its
    run-state is derived from its trimmed status.  The padded line of the
    claim gives identifier [abc] and name [web]. *)
Theorem parsed_fields_trimmed :
  (forall (out : string) (containers : slice Container) (c : Container),
      parseContainers out = Some containers ->
      In c (elems containers) ->
      (exists line,
          In line (strings.Split out newline)
          /\ c = recordOfParts (strings.Split (strings.TrimSpace line) "|"))
      /\ isTrimmed (ID c) = true
      /\ isTrimmed (Name c) = true
      /\ isTrimmed (Image c) = true
      /\ isTrimmed (Status c) = true
      /\ isTrimmed (Created c) = true
      /\ isTrimmed (Ports c) = true
      /\ State c = getStateFromStatus (Status c))
  /\ parseContainers " abc | web | nginx | Up | now "
     = Some (makeSlice [ {| ID := "abc"; Name := "web"; Image := "nginx";
                            Status := "Up"; State := "running";
                            Created := "now"; Ports := "" |} ]).
Proof.
  split; [|vm_compute; reflexivity].
  intros out containers c Hparse Hin.
  destruct (parsed_record_origin out containers c Hparse Hin) as (line & Hl & _ & _ & ->).
  split; [now exists line|].
  unfold recordOfParts; cbn [ID Name Image Status State Created Ports].
  repeat (split; [apply TrimSpace_isTrimmed|]).
  split; [|reflexivity].
  destruct (nth_error _ 5); [apply TrimSpace_isTrimmed | reflexivity].
Qed.

Lemma parsed_fields_trimmed_witness :
  isTrimmed "abc" = true /\ isTrimmed "web" = true /\ isTrimmed "Up" = true
  /\ getStateFromStatus "Up" = "running".
Proof.
  destruct (proj1 parsed_fields_trimmed " abc | web | nginx | Up | now "
                  (makeSlice [ {| ID := "abc"; Name := "web"; Image := "nginx";
                                  Status := "Up"; State := "running";
                                  Created := "now"; Ports := "" |} ])
                  {| ID := "abc"; Name := "web"; Image := "nginx";
                     Status := "Up"; State := "running";
                     Created := "now"; Ports := "" |})
    as (_ & Hid & Hname & _ & Hstatus & _ & _ & Hstate).
  - vm_compute. reflexivity.
  - simpl. now left.
  - simpl in *. repeat split; assumption.
Defined.

(** ** The service *)

Section EngineProperties.

Variable Transport : Type.
Variable sshRound : Transport -> ServerConfig -> string -> sshOutcome * Transport.

(** A call of the gateway never panics, journals its command and leaves the
    global manager alone. *)
Lemma executeSSHCommand_afterCommand (dm : DockerManager) (command : string)
      (w : World Transport) :
  exists output err,
    executeSSHCommand sshRound dm command w
    = Some ((output, err), afterCommand sshRound w dm command).
Proof.
  unfold executeSSHCommand, afterCommand.
  destruct (sshRound (remote w) (config dm) command) as [[e|e|e se|out] r']; simpl.
  - eauto.
  - eauto.
  - destruct (negb (String.eqb se "")); eauto.
  - eauto.
Qed.

Lemma executeSSHCommand_world (dm : DockerManager) (command : string)
      (w w' : World Transport) (output : string) (err : error) :
  executeSSHCommand sshRound dm command w = Some ((output, err), w') ->
  w' = afterCommand sshRound w dm command.
Proof.
  destruct (executeSSHCommand_afterCommand dm command w) as (o & e & H).
  rewrite H. now intros [= _ _ <-].
Qed.

(** Running the next gateway call of a method: name its output and error,
    and rewrite the call away. *)
Ltac run_gateway o e :=
  match goal with
  | |- context [executeSSHCommand sshRound ?dm ?c ?w] =>
      let H := fresh "Hrun" in
      destruct (executeSSHCommand_afterCommand dm c w) as (o & e & H);
      rewrite H; cbn beta iota
  end.

(** C3. Listing probes.  A listing call never panics; the commands it hands
    to the gateway are a non-empty initial part of: presence probe, health
    probe, raw listing, structured listing, in that order, and all four when
    the call succeeds.  When the presence probe fails the call returns the
    runtime-unavailable error and the probe is the only command issued. *)
Theorem listing_probe_order (dm : DockerManager) (w : World Transport) :
  exists result w',
    GetContainers sshRound dm w = Some (result, w')
    /\ (exists k,
           1 <= k <= 4
           /\ issued w' = issued w ++ map (pair (config dm)) (firstn k listingCommands))
    /\ (snd result = None ->
        issued w' = issued w ++ map (pair (config dm)) listingCommands)
    /\ (forall output cause w1,
           executeSSHCommand sshRound dm cmdWhichDocker w = Some ((output, Some cause), w1) ->
           result = (makeSlice [], Some (runtimeUnavailable cause))
           /\ w' = w1
           /\ issued w' = issued w ++ [(config dm, cmdWhichDocker)]).
Proof.
  unfold GetContainers, bind.
  run_gateway o1 e1. destruct e1 as [c1|].
  { eexists _, _. split; [reflexivity|]. split; [exists 1; split; [lia | reflexivity]|].
    split; [discriminate|].
    intros output cause w1 H. injection H as _ <- <-. auto. }
  run_gateway o2 e2. destruct e2 as [c2|].
  { eexists _, _. split; [reflexivity|]. split.
    - exists 2. split; [lia|]. simpl. now rewrite <- app_assoc.
    - split; [discriminate|]. intros output cause w1 H. discriminate. }
  run_gateway o3 e3. destruct e3 as [c3|].
  { eexists _, _. split; [reflexivity|]. split.
    - exists 3. split; [lia|]. simpl. now rewrite <- !app_assoc.
    - split; [discriminate|]. intros output cause w1 H. discriminate. }
  destruct (String.eqb (strings.TrimSpace o3) "").
  { eexists _, _. split; [reflexivity|]. split.
    - exists 3. split; [lia|]. simpl. now rewrite <- !app_assoc.
    - split; [discriminate|]. intros output cause w1 H. discriminate. }
  run_gateway o4 e4. destruct e4 as [c4|].
  { eexists _, _. split; [reflexivity|]. split.
    - exists 4. split; [lia|]. simpl. now rewrite <- !app_assoc.
    - split; [discriminate|]. intros output cause w1 H. discriminate. }
  rewrite parseContainers_listingLine. simpl.
  eexists _, _. split; [reflexivity|]. split.
  - exists 4. split; [lia|]. simpl. now rewrite <- !app_assoc.
  - split.
    + intros _. simpl. now rewrite <- !app_assoc.
    + intros output cause w1 H. discriminate.
Qed.

(** C4. Empty inventory and empty listing.  When the two probes and the raw
    listing succeed: a raw listing that is empty after trimming makes the call
    fail with the empty-inventory error, and the handler answers with a
    failure; a raw listing that is not empty, followed by a structured
    listing that parses to no record, makes the call succeed with a slice of
    length 0, and the handler answers with success and count 0. *)
Theorem listing_empty_outcomes
        (dm : DockerManager) (r : Request) (w w1 w2 w3 : World Transport)
        (o1 o2 raw : string) :
  dockerManager w = Some dm ->
  executeSSHCommand sshRound dm cmdWhichDocker w = Some ((o1, None), w1) ->
  executeSSHCommand sshRound dm cmdDockerInfo w1 = Some ((o2, None), w2) ->
  executeSSHCommand sshRound dm cmdDockerPs w2 = Some ((raw, None), w3) ->
  (strings.TrimSpace raw = "" ->
   GetContainers sshRound dm w = Some ((makeSlice [], Some emptyInventory), w3)
   /\ containersHandler sshRound r w
      = Some (EncodeJSON [("success", JBool false);
                          ("error", JString emptyInventory);
                          ("containers", JContainers (makeSlice []))], w3))
  /\ (strings.TrimSpace raw <> "" ->
      forall (formattedOutput : string) (w4 : World Transport)
             (containers : slice Container),
        executeSSHCommand sshRound dm cmdDockerPsFormat w3
        = Some ((formattedOutput, None), w4) ->
        parseContainers formattedOutput = Some containers ->
        len containers = 0 ->
        GetContainers sshRound dm w = Some ((containers, None), w4)
        /\ elems containers = []
        /\ containersHandler sshRound r w
           = Some (EncodeJSON [("success", JBool true);
                               ("containers", JContainers containers);
                               ("count", JInt 0)], w4)).
Proof.
  intros Hdm H1 H2 H3.
  assert (Hget : forall res w',
             GetContainers sshRound dm w = Some (res, w') ->
             containersHandler sshRound r w
             = Some (match snd res with
                     | Some e => EncodeJSON [("success", JBool false);
                                             ("error", JString e);
                                             ("containers", JContainers (makeSlice []))]
                     | None => EncodeJSON [("success", JBool true);
                                           ("containers", JContainers (fst res));
                                           ("count", JInt (len (fst res)))]
                     end, w')).
  { intros [cs e] w' H. unfold containersHandler, bind, getDockerManager.
    rewrite Hdm, H. now destruct e. }
  split.
  - intros Hraw.
    assert (GetContainers sshRound dm w = Some ((makeSlice [], Some emptyInventory), w3)) as G.
    { unfold GetContainers, bind. rewrite H1, H2, H3, Hraw. reflexivity. }
    split; [exact G | now rewrite (Hget _ _ G)].
  - intros Hraw formattedOutput w4 containers H4 Hparse Hlen.
    assert (GetContainers sshRound dm w = Some ((containers, None), w4)) as G.
    { unfold GetContainers, bind. rewrite H1, H2, H3.
      apply String.eqb_neq in Hraw. rewrite Hraw, H4, Hparse. reflexivity. }
    split; [exact G|]. split.
    + unfold len in Hlen. now apply length_zero_iff_nil.
    + rewrite (Hget _ _ G). simpl. now rewrite Hlen.
Qed.

(** C5, amended.  A request whose action verb is none of start, stop,
    restart and remove never reaches the remote side: the handler answers and
    the process state, journal included, is what it was.  When the request is
    a POST and a manager is configured, the answer is the unknown-action
    failure naming the verb. *)
Theorem unknown_action_no_command (r : Request) (w : World Transport) :
  knownAction (lookupVar (Vars r) "action") = false ->
  exists reply,
    containerActionHandler sshRound r w = Some (reply, w)
    /\ (Method r = "POST" ->
        dockerManager w <> None ->
        reply = unknownActionReply (lookupVar (Vars r) "action")).
Proof.
  unfold knownAction. intros Hk. apply orb_false_elim in Hk as [Hk Hremove].
  apply orb_false_elim in Hk as [Hk Hrestart]. apply orb_false_elim in Hk as [Hstart Hstop].
  unfold containerActionHandler, bind, getDockerManager, ret.
  destruct (String.eqb (Method r) "POST") eqn:Em; simpl.
  - destruct (dockerManager w) as [dm|] eqn:Ed.
    + rewrite Hstart, Hstop, Hrestart, Hremove. eexists. split; [reflexivity|]. reflexivity.
    + eexists. split; [reflexivity|]. intros _ N. now elim N.
  - eexists. split; [reflexivity|]. intros E. apply String.eqb_eq in E. congruence.
Qed.

(** C6, amended.  A lifecycle method hands exactly one command to the
    gateway, its own ([docker start], [docker stop], [docker restart],
    [docker rm -f] followed by the identifier): no presence probe comes
    before it, and what the method returns is the error of that command as
    the gateway gave it. *)
Theorem lifecycle_single_command (dm : DockerManager) (containerID : string)
        (w : World Transport) :
  let runs (method : DockerManager -> string -> M Transport error) (command : string) :=
    exists output err,
      executeSSHCommand sshRound dm command w
      = Some ((output, err), afterCommand sshRound w dm command)
      /\ method dm containerID w = Some (err, afterCommand sshRound w dm command)
      /\ issued (afterCommand sshRound w dm command) = issued w ++ [(config dm, command)] in
  runs (StartContainer sshRound) ("docker start " ^^ containerID)
  /\ runs (StopContainer sshRound) ("docker stop " ^^ containerID)
  /\ runs (RestartContainer sshRound) ("docker restart " ^^ containerID)
  /\ runs (RemoveContainer sshRound) ("docker rm -f " ^^ containerID).
Proof.
  cbv zeta.
  unfold StartContainer, StopContainer, RestartContainer, RemoveContainer, bind.
  repeat split.
  all: match goal with
       | |- exists _ _, executeSSHCommand _ ?d ?c ?x = _ /\ _ =>
           destruct (executeSSHCommand_afterCommand d c x) as (o & e & H);
           exists o, e; rewrite H; repeat split
       end.
Qed.

(** C7, amended.  A configuration request that is answered with success was
    a POST whose body decoded to a descriptor with host, user name and
    password; the handler installed that descriptor (port 22 by default) as
    the manager and then ran two checks under it, both of which passed, in
    this order: the SSH test command ([whoami && echo ...]) and
    [docker --version].  These two are all it handed to the gateway. *)
Theorem config_success_checks (r : Request) (w w' : World Transport) (reply : Response) :
  configHandler sshRound r w = Some (reply, w') ->
  reportsSuccess reply = true ->
  exists posted,
    Method r = "POST"
    /\ Body r = Some posted
    /\ Host posted <> "" /\ Username posted <> "" /\ Password posted <> ""
    /\ exists (o1 o2 : string) (w1 : World Transport),
        let dm := {| config := installedConfig posted |} in
        let w0 := {| dockerManager := Some dm; remote := remote w; issued := issued w |} in
        executeSSHCommand sshRound dm cmdSSHTest w0 = Some ((o1, None), w1)
        /\ executeSSHCommand sshRound dm cmdDockerVersion w1 = Some ((o2, None), w')
        /\ issued w' = issued w ++ [(installedConfig posted, cmdSSHTest);
                                    (installedConfig posted, cmdDockerVersion)]
        /\ dockerManager w' = Some dm
        /\ reply = EncodeJSON [("success", JBool true);
                               ("message", JString "Configuration saved successfully")].
Proof.
  unfold configHandler, bind, setDockerManager, ret.
  destruct (String.eqb (Method r) "POST") eqn:Em; simpl;
    [|intros [= <- <-]; discriminate].
  destruct (Body r) as [posted|] eqn:Eb; [|intros [= <- <-]; discriminate].
  destruct (String.eqb (Host posted) "") eqn:Eh; simpl; [intros [= <- <-]; discriminate|].
  destruct (String.eqb (Username posted) "") eqn:Eu; simpl;
    [intros [= <- <-]; discriminate|].
  destruct (String.eqb (Password posted) "") eqn:Ep; simpl;
    [intros [= <- <-]; discriminate|].
  fold (installedConfig posted).
  run_gateway o1 e1. destruct e1 as [c1|]; [intros [= <- <-]; discriminate|].
  run_gateway o2 e2. destruct e2 as [c2|]; [intros [= <- <-]; discriminate|].
  intros [= <- <-] _. exists posted.
  apply String.eqb_eq in Em. apply String.eqb_neq in Eh, Eu, Ep.
  repeat (split; [assumption || reflexivity|]).
  exists o1, o2. eexists. cbv zeta.
  split; [exact Hrun|]. split; [exact Hrun0|].
  split; [simpl; now rewrite <- app_assoc|]. split; reflexivity.
Qed.


End EngineProperties.

(** ** The claims on the example hosts *)

Lemma listing_probe_order_witness :
  exists result w',
    GetContainers hostWithoutDocker exampleManager (startWorld (Some exampleManager))
    = Some (result, w')
    /\ result = (makeSlice [],
                 Some (runtimeUnavailable
                         "command 'which docker' failed: Process exited with status 1"))
    /\ issued w' = [(exampleConfig, cmdWhichDocker)].
Proof.
  destruct (listing_probe_order unit hostWithoutDocker exampleManager
                                (startWorld (Some exampleManager)))
    as (result & w' & Hget & _ & _ & Hfail).
  exists result, w'. split; [exact Hget|].
  edestruct Hfail as (Hresult & _ & Hissued); [vm_compute; reflexivity|].
  split; assumption.
Defined.

Lemma listing_empty_outcomes_witness :
  (GetContainers hostBlankListing exampleManager (startWorld (Some exampleManager))
   = Some ((makeSlice [], Some emptyInventory),
           {| dockerManager := Some exampleManager; remote := tt;
              issued := map (pair exampleConfig) (firstn 3 listingCommands) |})
   /\ containersHandler hostBlankListing listRequest (startWorld (Some exampleManager))
      = Some (EncodeJSON [("success", JBool false);
                          ("error", JString emptyInventory);
                          ("containers", JContainers (makeSlice []))],
              {| dockerManager := Some exampleManager; remote := tt;
                 issued := map (pair exampleConfig) (firstn 3 listingCommands) |}))
  /\ (GetContainers hostNoContainers exampleManager (startWorld (Some exampleManager))
      = Some ((nilSlice, None),
              {| dockerManager := Some exampleManager; remote := tt;
                 issued := map (pair exampleConfig) listingCommands |})
      /\ elems (@nilSlice Container) = []
      /\ containersHandler hostNoContainers listRequest (startWorld (Some exampleManager))
         = Some (EncodeJSON [("success", JBool true);
                             ("containers", JContainers nilSlice);
                             ("count", JInt 0)],
                 {| dockerManager := Some exampleManager; remote := tt;
                    issued := map (pair exampleConfig) listingCommands |})).
Proof.
  split.
  - eapply (listing_empty_outcomes unit hostBlankListing exampleManager listRequest
              (startWorld (Some exampleManager))); reflexivity.
  - eapply (listing_empty_outcomes unit hostNoContainers exampleManager listRequest
              (startWorld (Some exampleManager)));
      try reflexivity; vm_compute; discriminate.
Defined.

Lemma unknown_action_no_command_witness :
  containerActionHandler hostNoContainers (actionRequest "POST" "abc123" "pause")
                         (startWorld (Some exampleManager))
  = Some (unknownActionReply "pause", startWorld (Some exampleManager)).
Proof.
  destruct (unknown_action_no_command unit hostNoContainers
              (actionRequest "POST" "abc123" "pause") (startWorld (Some exampleManager))
              eq_refl) as (reply & Hrun & Hreply).
  rewrite Hrun, Hreply; [reflexivity | reflexivity | discriminate].
Defined.

(** The claim C5 as it is written fails where a guard of the handler answers
    first: with no manager configured, and on a request that is not a POST,
    the verb [pause] gets a reply that is not the unknown-action failure. *)
Lemma unknown_action_guarded_counterexample :
  (containerActionHandler hostNoContainers (actionRequest "POST" "abc123" "pause")
                          (startWorld None)
   = Some (EncodeJSON [("success", JBool false);
                       ("error", JString "No server configuration found")],
           startWorld None)
   /\ EncodeJSON [("success", JBool false);
                  ("error", JString "No server configuration found")]
      <> unknownActionReply "pause")
  /\ (containerActionHandler hostNoContainers (actionRequest "GET" "abc123" "pause")
                             (startWorld (Some exampleManager))
      = Some (HttpError "Method not allowed" 405, startWorld (Some exampleManager))
      /\ HttpError "Method not allowed" 405 <> unknownActionReply "pause").
Proof. repeat split; discriminate. Qed.

(** The claim C6 as it is written fails: on a host whose presence probe
    fails, starting a container hands [docker start] to the gateway all the
    same, no probe is issued, and the error returned is that command's own. *)
Lemma lifecycle_no_probe_counterexample :
  executeSSHCommand hostWithoutDocker exampleManager cmdWhichDocker
                    (startWorld (Some exampleManager))
  = Some (("", Some "command 'which docker' failed: Process exited with status 1"),
          {| dockerManager := Some exampleManager; remote := tt;
             issued := [(exampleConfig, cmdWhichDocker)] |})
  /\ StartContainer hostWithoutDocker exampleManager "abc123"
                    (startWorld (Some exampleManager))
     = Some (Some ("command 'docker start abc123' failed: Process exited with status 127"
                   ^^ ", stderr: bash: docker: command not found"),
             {| dockerManager := Some exampleManager; remote := tt;
                issued := [(exampleConfig, "docker start abc123")] |})
  /\ RemoveContainer hostWithoutDocker exampleManager "abc123"
                     (startWorld (Some exampleManager))
     = Some (Some ("command 'docker rm -f abc123' failed: Process exited with status 127"
                   ^^ ", stderr: bash: docker: command not found"),
             {| dockerManager := Some exampleManager; remote := tt;
                issued := [(exampleConfig, "docker rm -f abc123")] |}).
Proof. repeat split. Qed.

(** The claim C7 as it is written fails: on a host whose daemon is down the
    configuration request is answered with success after the SSH test and
    [docker --version]; neither [which docker] nor [docker info] was run, and
    [docker info] fails there. *)
Lemma config_checks_counterexample :
  configHandler hostDaemonDown configRequest (startWorld None)
  = Some (EncodeJSON [("success", JBool true);
                      ("message", JString "Configuration saved successfully")],
          {| dockerManager := Some exampleManager; remote := tt;
             issued := [(exampleConfig, cmdSSHTest); (exampleConfig, cmdDockerVersion)] |})
  /\ ~ In cmdWhichDocker [cmdSSHTest; cmdDockerVersion]
  /\ ~ In cmdDockerInfo [cmdSSHTest; cmdDockerVersion]
  /\ fst (hostDaemonDown tt exampleConfig cmdDockerInfo)
     = RunFailed "Process exited with status 1"
                 "Cannot connect to the Docker daemon at unix:///var/run/docker.sock".
Proof.
  split; [reflexivity|].
  split; [|split; [|reflexivity]]; simpl; intros [H|[H|[]]]; discriminate.
Qed.

Lemma config_success_checks_witness :
  exists posted,
    Body configRequest = Some posted
    /\ installedConfig posted = exampleConfig.
Proof.
  edestruct (config_success_checks unit hostDaemonDown configRequest (startWorld None))
    as (posted & _ & Hbody & _); [vm_compute; reflexivity | reflexivity |].
  exists posted. split; [exact Hbody|].
  simpl in Hbody. injection Hbody as <-. reflexivity.
Defined.

(** * Further properties *)

(** ** More on the [strings] model *)

Lemma holdsByte_append (c : ascii) (a b : string) :
  holdsByte c (a ^^ b) = holdsByte c a || holdsByte c b.
Proof.
  induction a as [|x a IH]; simpl; [reflexivity|]. now rewrite IH, orb_assoc.
Qed.

Lemma holdsByte_occursIn (c : ascii) (s : string) :
  holdsByte c s = true <-> occursIn (String c "") s.
Proof.
  split.
  - induction s as [|x s IH]; simpl; [discriminate|].
    destruct (Ascii.eqb x c) eqn:E; simpl.
    + intros _. apply Ascii.eqb_eq in E as ->. now exists "", s.
    + intros H. destruct (IH H) as (b & a & ->). now exists (String x b), a.
  - intros (b & a & ->). rewrite holdsByte_append. simpl.
    rewrite Ascii.eqb_refl. simpl. apply orb_true_r.
Qed.

Lemma allSpace_append (a b : string) :
  allSpace (a ^^ b) = allSpace a && allSpace b.
Proof.
  induction a as [|x a IH]; simpl; [reflexivity|]. now rewrite IH, andb_assoc.
Qed.

(** [TrimSpace] cuts white space off both ends and nothing else. *)
Lemma trimStart_decompose (s : string) :
  exists lead, s = lead ^^ strings.trimStart s /\ allSpace lead = true.
Proof.
  induction s as [|c s (lead & Hs & Hl)]; simpl; [now exists ""|].
  destruct (strings.asciiSpace c) eqn:E.
  - exists (String c lead). simpl. rewrite E, Hl. split; [now rewrite <- Hs | reflexivity].
  - now exists "".
Qed.

Lemma trimStop_decompose (s : string) :
  exists trail, s = strings.trimStop s ^^ trail /\ allSpace trail = true.
Proof.
  induction s as [|c s (trail & Hs & Hl)]; simpl; [now exists ""|].
  destruct (strings.trimStop s) as [|k kept] eqn:E.
  - destruct (strings.asciiSpace c) eqn:Ec.
    + exists (String c trail). simpl. rewrite Ec, Hl. simpl in Hs.
      split; [now rewrite <- Hs | reflexivity].
    + exists trail. simpl in *. split; [now rewrite <- Hs | exact Hl].
  - exists trail. simpl in *. split; [now rewrite <- Hs | exact Hl].
Qed.

Lemma TrimSpace_decompose (s : string) :
  exists lead trail,
    s = lead ^^ strings.TrimSpace s ^^ trail
    /\ allSpace lead = true /\ allSpace trail = true.
Proof.
  destruct (trimStart_decompose s) as (lead & Hs & Hl).
  destruct (trimStop_decompose (strings.trimStart s)) as (trail & Ht & Htl).
  exists lead, trail. unfold strings.TrimSpace. now rewrite <- Ht.
Qed.

Lemma TrimSpace_holdsByte (c : ascii) (s : string) :
  holdsByte c s = false -> holdsByte c (strings.TrimSpace s) = false.
Proof.
  destruct (TrimSpace_decompose s) as (lead & trail & Hs & _).
  intros H. rewrite Hs, !holdsByte_append in H.
  apply orb_false_elim in H as [_ H]. now apply orb_false_elim in H as [H _].
Qed.



Lemma Index_byte_absent (c : ascii) (s : string) :
  holdsByte c s = false -> strings.Index s (String c "") = None.
Proof.
  intros H. destruct (strings.Index s (String c "")) as [m|] eqn:E; [|reflexivity].
  destruct (Index_Some _ _ _ E) as (b & a & Hs & _).
  assert (holdsByte c s = true) by (apply holdsByte_occursIn; now exists b, a).
  congruence.
Qed.

Lemma HasPrefix_empty (s : string) : strings.HasPrefix s "" = true.
Proof. now destruct s. Qed.

Lemma Index_byte_first (c : ascii) (field rest : string) :
  holdsByte c field = false ->
  strings.Index (field ^^ String c rest) (String c "") = Some (String.length field).
Proof.
  induction field as [|x field IH]; intros H; rewrite Index_unfold.
  - cbn [String.append strings.HasPrefix].
    now rewrite Ascii.eqb_refl, HasPrefix_empty.
  - cbn [holdsByte] in H. apply orb_false_elim in H as [Hx H].
    cbn [String.append strings.HasPrefix]. rewrite Hx. cbn [andb].
    now rewrite (IH H).
Qed.

Lemma sliceTo_append (a b : string) : strings.sliceTo (String.length a) (a ^^ b) = a.
Proof.
  induction a as [|x a IH]; simpl; [now destruct b | now rewrite IH].
Qed.

Lemma sliceFrom_append (a b : string) : strings.sliceFrom (String.length a) (a ^^ b) = b.
Proof.
  induction a as [|x a IH]; simpl; [now destruct b | exact IH].
Qed.

(** Splitting puts back the fields a text was joined from, when no field
    holds the one-byte separator. *)
Lemma genSplit_joinWith (c : ascii) (fields : list string) :
  fields <> [] ->
  Forall (fun field => holdsByte c field = false) fields ->
  forall fuel,
    String.length (joinWith (String c "") fields) <= fuel ->
    strings.genSplit fuel (joinWith (String c "") fields) (String c "") = fields.
Proof.
  induction fields as [|field rest IH]; [congruence|]. intros _ Hfree fuel Hfuel.
  inversion Hfree as [|? ? Hfield Hrest]; subst.
  destruct rest as [|next rest].
  - simpl in *. destruct fuel; cbn [strings.genSplit]; [reflexivity|].
    now rewrite Index_byte_absent.
  - specialize (IH ltac:(discriminate) Hrest).
    change (joinWith (String c "") (field :: next :: rest))
      with (field ^^ String c (joinWith (String c "") (next :: rest))) in *.
    remember (joinWith (String c "") (next :: rest)) as tail eqn:Etail.
    rewrite length_append in Hfuel. cbn [String.length] in Hfuel.
    destruct fuel as [|fuel]; [lia|]. cbn [strings.genSplit].
    rewrite Index_byte_first by assumption.
    rewrite sliceTo_append.
    replace (String.length field + String.length (String c ""))
      with (String.length (field ^^ String c "")) by (rewrite length_append; reflexivity).
    replace (field ^^ String c tail) with ((field ^^ String c "") ^^ tail)
      by (now rewrite append_assoc).
    rewrite sliceFrom_append. f_equal.
    apply IH. lia.
Qed.

Lemma Split_joinWith_inv (c : ascii) (fields : list string) :
  fields <> [] ->
  Forall (fun field => holdsByte c field = false) fields ->
  strings.Split (joinWith (String c "") fields) (String c "") = fields.
Proof.
  intros Hne Hfree. unfold strings.Split. now apply genSplit_joinWith.
Qed.

Lemma Split_not_nil (s sep : string) : sep <> "" -> strings.Split s sep <> [].
Proof.
  intros Hsep. unfold strings.Split. destruct sep; [congruence|]. apply genSplit_not_nil.
Qed.

Lemma Split_byte_free (c : ascii) (s : string) :
  Forall (fun field => holdsByte c field = false) (strings.Split s (String c "")).
Proof.
  assert (String c "" <> "") as Hsep by discriminate.
  pose proof (Split_fields_free s _ Hsep) as H.
  eapply Forall_impl; [|exact H]. cbv beta. intros field Hf.
  destruct (holdsByte c field) eqn:E; [|reflexivity].
  apply holdsByte_occursIn in E. contradiction.
Qed.

Lemma joinWith_app (sep : string) (l1 l2 : list string) :
  l1 <> [] -> l2 <> [] ->
  joinWith sep (l1 ++ l2) = joinWith sep l1 ^^ sep ^^ joinWith sep l2.
Proof.
  induction l1 as [|a l1 IH]; [congruence|]. intros _ H2.
  destruct l1 as [|b l1].
  - simpl. destruct l2; [congruence | reflexivity].
  - change (joinWith sep ((a :: b :: l1) ++ l2))
      with (a ^^ sep ^^ joinWith sep ((b :: l1) ++ l2)).
    rewrite IH by (discriminate || assumption).
    change (joinWith sep (a :: b :: l1)) with (a ^^ sep ^^ joinWith sep (b :: l1)).
    now rewrite !append_assoc.
Qed.

(** The fields of two texts put together with the separator between them
    are the fields of the first followed by those of the second. *)
Lemma Split_append (c : ascii) (a b : string) :
  strings.Split (a ^^ String c b) (String c "")
  = strings.Split a (String c "") ++ strings.Split b (String c "").
Proof.
  assert (String c "" <> "") as Hsep by discriminate.
  rewrite <- (Split_joinWith a _ Hsep) at 1. rewrite <- (Split_joinWith b _ Hsep) at 1.
  change (String c (joinWith (String c "") (strings.Split b (String c ""))))
    with (String c "" ^^ joinWith (String c "") (strings.Split b (String c ""))).
  rewrite <- joinWith_app by (now apply Split_not_nil).
  apply Split_joinWith_inv.
  - intros E. apply app_eq_nil in E as [E _]. now apply Split_not_nil in E.
  - apply Forall_app. split; apply Split_byte_free.
Qed.

(** Each field of [Split] is a piece of the text. *)
Lemma Split_field_within (s sep field : string) :
  sep <> "" -> In field (strings.Split s sep) -> occursIn field s.
Proof.
  intros Hsep. unfold strings.Split. destruct sep as [|x sep']; [congruence|].
  generalize (String.length s). intros fuel. revert s.
  induction fuel as [|fuel IH]; intros s; cbn [strings.genSplit].
  - intros [<-|[]]. exists "", "". now rewrite append_empty_r.
  - destruct (strings.Index s (String x sep')) as [m|] eqn:E.
    + destruct (Index_Some _ _ _ E) as (b & a & Hs & _ & Hb & Ha).
      rewrite <- Hb, <- Ha. intros [<-|Hin].
      * exists "", (String x sep' ^^ a). now rewrite Hs.
      * destruct (IH a Hin) as (b' & a' & Ha').
        exists (b ^^ String x sep' ^^ b'), a'.
        rewrite Hs, Ha', !append_assoc. reflexivity.
    + intros [<-|[]]. exists "", "". now rewrite append_empty_r.
Qed.

(** ** More on the parsers *)

Lemma flat_map_nil {A B : Type} (f : A -> list B) (l : list A) :
  (forall x, In x l -> f x = []) -> flat_map f l = [].
Proof.
  induction l as [|x l IH]; simpl; [reflexivity|]. intros H.
  rewrite (H x) by now left. apply IH. intros y Hy. apply H. now right.
Qed.

Lemma flat_map_length_le {A B : Type} (f : A -> list B) (l : list A) :
  (forall x, List.length (f x) <= 1) -> List.length (flat_map f l) <= List.length l.
Proof.
  intros H. induction l as [|x l IH]; simpl; [lia|].
  rewrite length_app. specialize (H x). lia.
Qed.

Lemma listingLine_length (line : string) : List.length (listingLine line) <= 1.
Proof.
  unfold listingLine. destruct (String.eqb _ ""); [simpl; lia|].
  destruct (5 <=? _); simpl; lia.
Qed.

Lemma within_holdsByte (c : ascii) (piece s : string) :
  occursIn piece s -> holdsByte c s = false -> holdsByte c piece = false.
Proof.
  intros (b & a & ->). rewrite !holdsByte_append. intros H.
  apply orb_false_elim in H as [_ H]. now apply orb_false_elim in H as [H _].
Qed.

Lemma within_allSpace (piece s : string) :
  occursIn piece s -> allSpace s = true -> allSpace piece = true.
Proof.
  intros (b & a & ->). rewrite !allSpace_append, !andb_true_iff. tauto.
Qed.

Lemma newline_append (b : string) : newline ^^ b = String newlineByte b.
Proof. reflexivity. Qed.

(** The fields of a line of the listing hold neither a bar nor a line feed,
    trimmed or not. *)
Lemma listing_part_free (out line part : string) :
  In line (strings.Split out newline) ->
  In part (strings.Split (strings.TrimSpace line) "|") ->
  holdsByte barByte (strings.TrimSpace part) = false
  /\ holdsByte newlineByte (strings.TrimSpace part) = false.
Proof.
  intros Hline Hpart. split; apply TrimSpace_holdsByte.
  - pose proof (Split_byte_free barByte (strings.TrimSpace line)) as H.
    rewrite Forall_forall in H. now apply H.
  - apply (within_holdsByte _ part (strings.TrimSpace line)).
    + apply (Split_field_within _ "|"); [discriminate | exact Hpart].
    + apply TrimSpace_holdsByte.
      pose proof (Split_byte_free newlineByte out) as H.
      rewrite Forall_forall in H. now apply H.
Qed.

(** X2. Shape of the parsed records.  The listing parse returns at most one
    record per line of the output; no text of a record holds a bar or a line
    feed, and the run-state of a record is [running] or [stopped]. *)
Theorem parsed_records_wellformed (out : string) (containers : slice Container) :
  parseContainers out = Some containers ->
  len containers <= List.length (strings.Split out newline)
  /\ forall c, In c (elems containers) ->
       (forall text, In text [ID c; Name c; Image c; Status c; Created c; Ports c] ->
          holdsByte barByte text = false /\ holdsByte newlineByte text = false)
       /\ (State c = "running" \/ State c = "stopped").
Proof.
  intros Hparse. split.
  - rewrite parseContainers_listingLine in Hparse. injection Hparse as <-.
    unfold len. rewrite elems_extend. simpl.
    apply flat_map_length_le, listingLine_length.
  - intros c Hin.
    destruct (parsed_record_origin out containers c Hparse Hin)
      as (line & Hline & _ & Hlen & ->).
    set (parts := strings.Split (strings.TrimSpace line) "|") in *.
    assert (Hnth : forall i, i < 5 ->
               holdsByte barByte (strings.TrimSpace (nth i parts "")) = false
               /\ holdsByte newlineByte (strings.TrimSpace (nth i parts "")) = false).
    { intros i Hi. apply (listing_part_free out line); [exact Hline|].
      apply nth_In. fold parts. lia. }
    split.
    + unfold recordOfParts; cbn [ID Name Image Status Created Ports].
      intros text [<-|[<-|[<-|[<-|[<-|[<-|[]]]]]]]; try (apply Hnth; lia).
      destruct (nth_error parts 5) as [p5|] eqn:E5; [|split; reflexivity].
      apply (listing_part_free out line); [exact Hline|].
      now apply nth_error_In in E5.
    + unfold recordOfParts; cbn [State]. unfold getStateFromStatus.
      destruct (strings.Contains _ "up"); [now left | now right].
Qed.

Lemma parsed_records_wellformed_witness :
  len (makeSlice [recordOfParts ["abc123"; "web"; "nginx:latest"; "Up 2 hours";
                                 "2024-01-01"; "80/tcp"]])
  <= List.length (strings.Split
                    ("abc123|web|nginx:latest|Up 2 hours|2024-01-01|80/tcp" ^^ newline)
                    newline).
Proof.
  apply (parsed_records_wellformed
           ("abc123|web|nginx:latest|Up 2 hours|2024-01-01|80/tcp" ^^ newline)).
  vm_compute. reflexivity.
Defined.

(** X3. Fields after the sixth.  Two lines with at least five fields whose
    first six fields are the same add the same record: what a line holds
    after its sixth field is dropped. *)
Theorem fields_after_sixth_dropped (acc : slice Container) (line1 line2 : string) :
  5 <= List.length (strings.Split (strings.TrimSpace line1) "|") ->
  firstn 6 (strings.Split (strings.TrimSpace line1) "|")
  = firstn 6 (strings.Split (strings.TrimSpace line2) "|") ->
  containersLoopBody acc line1 = containersLoopBody acc line2
  /\ exists container, containersLoopBody acc line1 = Some (append acc container).
Proof.
  intros Hlen Hsame.
  assert (Hne : forall line,
             5 <= List.length (strings.Split (strings.TrimSpace line) "|") ->
             strings.TrimSpace line <> "").
  { intros line H E. rewrite E, Split_empty_bar in H. simpl in H. lia. }
  assert (Hlen2 : 5 <= List.length (strings.Split (strings.TrimSpace line2) "|")).
  { apply (f_equal (@List.length string)) in Hsame. rewrite !length_firstn in Hsame. lia. }
  destruct (containersLoopBody_fields acc line1 _ eq_refl (Hne _ Hlen)) as [H1 _].
  destruct (containersLoopBody_fields acc line2 _ eq_refl (Hne _ Hlen2)) as [H2 _].
  rewrite (H1 Hlen), (H2 Hlen2). split; [|eauto]. do 2 f_equal.
  assert (Hfirst : forall parts, recordOfParts parts = recordOfParts (firstn 6 parts)).
  { intros parts.
    destruct parts as [|p0 [|p1 [|p2 [|p3 [|p4 [|p5 rest]]]]]]; reflexivity. }
  rewrite (Hfirst (strings.Split (strings.TrimSpace line1) "|")), Hsame.
  symmetry. apply Hfirst.
Qed.

Lemma fields_after_sixth_dropped_witness :
  containersLoopBody nilSlice "abc|web|nginx|Up|now|80/tcp|more|fields"
  = containersLoopBody nilSlice "abc|web|nginx|Up|now|80/tcp"
  /\ exists container,
      containersLoopBody nilSlice "abc|web|nginx|Up|now|80/tcp|more|fields"
      = Some (append nilSlice container).
Proof.
  apply (fields_after_sixth_dropped nilSlice
           "abc|web|nginx|Up|now|80/tcp|more|fields" "abc|web|nginx|Up|now|80/tcp").
  - vm_compute. lia.
  - vm_compute. reflexivity.
Defined.

(** X4. Parsing joined outputs.  The records (listing) and the log records
    (log tail) of two outputs put together with a line feed between them are
    those of the first output followed by those of the second. *)
Theorem parse_joined_outputs (a b : string) :
  (exists ca cb cab,
      parseContainers a = Some ca /\ parseContainers b = Some cb
      /\ parseContainers (a ^^ newline ^^ b) = Some cab
      /\ elems cab = elems ca ++ elems cb)
  /\ (exists la lb lab,
         parseLogs a = Some la /\ parseLogs b = Some lb
         /\ parseLogs (a ^^ newline ^^ b) = Some lab
         /\ elems lab = elems la ++ elems lb).
Proof.
  assert (Hsplit : strings.Split (a ^^ newline ^^ b) newline
                   = strings.Split a newline ++ strings.Split b newline).
  { rewrite newline_append. apply Split_append. }
  split.
  - do 3 eexists. repeat split; try apply parseContainers_listingLine.
    rewrite !elems_extend, Hsplit, flat_map_app. reflexivity.
  - do 3 eexists. repeat split; try apply parseLogs_logLines.
    rewrite !elems_extend. unfold logLines.
    rewrite Hsplit, map_app, filter_app, map_app. reflexivity.
Qed.

(** X5. Blank output.  On an output that is empty or all white space both
    parsers return the [nil] slice: no record, and no slice allocated. *)
Theorem blank_output_parses_to_nil (out : string) :
  allSpace out = true ->
  parseContainers out = Some nilSlice /\ parseLogs out = Some nilSlice.
Proof.
  intros Hblank.
  assert (Hlines : forall line, In line (strings.Split out newline) ->
                     strings.TrimSpace line = "").
  { intros line Hin. apply TrimSpace_empty_iff.
    apply (within_allSpace line out); [|exact Hblank].
    apply (Split_field_within _ newline); [discriminate | exact Hin]. }
  split.
  - rewrite parseContainers_listingLine, flat_map_nil; [reflexivity|].
    intros line Hin. unfold listingLine. now rewrite (Hlines line Hin).
  - rewrite parseLogs_logLines. unfold logLines. rewrite <- logLines_flat_map.
    rewrite flat_map_nil; [reflexivity|].
    intros line Hin. now rewrite (Hlines line Hin).
Qed.

Lemma blank_output_parses_to_nil_witness :
  parseContainers ("  " ^^ newline ^^ " ") = Some nilSlice
  /\ parseLogs ("  " ^^ newline ^^ " ") = Some nilSlice.
Proof. apply blank_output_parses_to_nil. reflexivity. Defined.

(** X6. Shape of the log records.  The log parse returns at most one record
    per line of the output; no record is empty, none has white space at an
    end, and none holds a line feed. *)
Theorem log_records_wellformed (out : string) (logs : slice ContainerLog) :
  parseLogs out = Some logs ->
  len logs <= List.length (strings.Split out newline)
  /\ forall l, In l (elems logs) ->
       Log l <> "" /\ isTrimmed (Log l) = true /\ holdsByte newlineByte (Log l) = false.
Proof.
  rewrite parseLogs_logLines. intros [= <-]. rewrite elems_extend. simpl. split.
  - unfold len. rewrite elems_extend. simpl. unfold logLines.
    rewrite length_map. etransitivity; [apply filter_length_le|]. now rewrite length_map.
  - intros l Hin. unfold logLines in Hin.
    apply in_map_iff in Hin as (text & <- & Hin).
    apply filter_In in Hin as [Hin Hne]. apply in_map_iff in Hin as (line & <- & Hin).
    cbn [Log]. split; [|split].
    + apply negb_true_iff in Hne. now apply String.eqb_neq.
    + apply TrimSpace_isTrimmed.
    + apply TrimSpace_holdsByte.
      pose proof (Split_byte_free newlineByte out) as H.
      rewrite Forall_forall in H. now apply H.
Qed.

Lemma log_records_wellformed_witness :
  len (makeSlice [ {| Log := "line1" |}; {| Log := "line2" |} ])
  <= List.length (strings.Split ("line1" ^^ newline ^^ newline ^^ "line2" ^^ newline) newline).
Proof.
  apply (log_records_wellformed ("line1" ^^ newline ^^ newline ^^ "line2" ^^ newline)).
  vm_compute. reflexivity.
Defined.








Lemma occursIn_context (sub s before after : string) :
  occursIn sub s -> occursIn sub (before ^^ s ^^ after).
Proof.
  intros (b & a & ->). exists (before ^^ b), (a ^^ after).
  now rewrite !append_assoc.
Qed.

(** X8. Run-state and surrounding text.  A status that derives [running]
    still derives [running] with any text put before and after it, and a
    status that derives [stopped] has no part that derives [running]: the
    word [up] counts wherever it stands, inside another word too. *)
Theorem run_state_in_context (before status after : string) :
  (getStateFromStatus status = "running" ->
   getStateFromStatus (before ^^ status ^^ after) = "running")
  /\ (getStateFromStatus (before ^^ status ^^ after) = "stopped" ->
      getStateFromStatus status = "stopped")
  /\ getStateFromStatus (before ^^ "interrupted" ^^ after) = "running".
Proof.
  assert (Hrun : forall s, getStateFromStatus s = "running"
                           <-> strings.Contains (strings.ToLower s) "up" = true).
  { intros s. unfold getStateFromStatus.
    destruct (strings.Contains _ "up"); split; congruence. }
  assert (Hmono : forall s, getStateFromStatus s = "running" ->
                            getStateFromStatus (before ^^ s ^^ after) = "running").
  { intros s. rewrite !Hrun, !Contains_iff, !ToLower_append. apply occursIn_context. }
  split; [apply Hmono|]. split; [|now apply Hmono].
  intros Hstopped. unfold getStateFromStatus in *.
  destruct (strings.Contains (strings.ToLower status) "up") eqn:E; [|reflexivity].
  assert (getStateFromStatus status = "running") as H by (now apply Hrun).
  apply Hmono in H. unfold getStateFromStatus in H.
  destruct (strings.Contains (strings.ToLower (before ^^ status ^^ after)) "up");
    congruence.
Qed.

Lemma flat_map_ext_map {A B C : Type} (g : A -> B) (f : B -> list C) (l1 l2 : list A) :
  map g l1 = map g l2 -> flat_map (fun x => f (g x)) l1 = flat_map (fun x => f (g x)) l2.
Proof.
  revert l2; induction l1 as [|x l1 IH]; intros [|y l2]; simpl; try discriminate;
    [reflexivity|].
  intros [= -> H]. now rewrite (IH l2 H).
Qed.

(** X17. White space around lines.  Two outputs whose lines are the same
    once trimmed (carriage returns before the line feeds, indentation,
    trailing blanks) parse to the same records and to the same log records. *)
Theorem line_padding_ignored (out1 out2 : string) :
  map strings.TrimSpace (strings.Split out1 newline)
  = map strings.TrimSpace (strings.Split out2 newline) ->
  parseContainers out1 = parseContainers out2 /\ parseLogs out1 = parseLogs out2.
Proof.
  intros Hsame. split.
  - rewrite !parseContainers_listingLine. do 2 f_equal.
    apply (flat_map_ext_map strings.TrimSpace
             (fun trimmed =>
                if String.eqb trimmed "" then []
                else if 5 <=? List.length (strings.Split trimmed "|")
                     then [recordOfParts (strings.Split trimmed "|")] else [])).
    exact Hsame.
  - rewrite !parseLogs_logLines. unfold logLines. now rewrite Hsame.
Qed.

Lemma line_padding_ignored_witness :
  parseContainers ("abc|web|nginx|Up|now" ^^ String (ascii_of_nat 13) newline
                   ^^ "def|db|postgres|Exited|then" ^^ String (ascii_of_nat 13) newline)
  = parseContainers ("  abc|web|nginx|Up|now" ^^ newline
                     ^^ "def|db|postgres|Exited|then  " ^^ newline)
  /\ parseLogs ("abc|web|nginx|Up|now" ^^ String (ascii_of_nat 13) newline
                ^^ "def|db|postgres|Exited|then" ^^ String (ascii_of_nat 13) newline)
     = parseLogs ("  abc|web|nginx|Up|now" ^^ newline
                  ^^ "def|db|postgres|Exited|then  " ^^ newline).
Proof. apply line_padding_ignored. vm_compute. reflexivity. Defined.

(** ** More on the gateway, the service and the handlers *)

Section ServiceProperties.

Variable Transport : Type.
Variable sshRound : Transport -> ServerConfig -> string -> sshOutcome * Transport.

Ltac next_gateway o e H :=
  match goal with
  | |- context [executeSSHCommand sshRound ?dm ?c ?w] =>
      destruct (executeSSHCommand_afterCommand Transport sshRound dm c w) as (o & e & H);
      rewrite H; cbn beta iota
  end.

Lemma occursIn_middle (a sub b : string) : occursIn sub (a ^^ sub ^^ b).
Proof. now exists a, b. Qed.

Lemma occursIn_empty (s : string) : occursIn "" s.
Proof. now exists "", s. Qed.

Lemma occursIn_end (a sub : string) : occursIn sub (a ^^ sub).
Proof. exists a, "". now rewrite append_empty_r. Qed.

Lemma occursIn_after (a s sub : string) : occursIn sub s -> occursIn sub (a ^^ s).
Proof.
  intros (b & c & ->). exists (a ^^ b), c. now rewrite append_assoc.
Qed.

(** X9. Gateway results.  A call of the gateway never panics, journals its
    command once under the manager's descriptor and leaves the global manager
    alone.  It returns no error exactly when the command ran and succeeded,
    and then the output is what the command printed; with an error the
    output is empty.  The error of a failed command names the command, the
    failure and what was captured from standard error; the error of a failed
    dial names the address, host then port. *)
Theorem gateway_result_shape (dm : DockerManager) (command : string) (w : World Transport) :
  exists output err w',
    executeSSHCommand sshRound dm command w = Some ((output, err), w')
    /\ dockerManager w' = dockerManager w
    /\ issued w' = issued w ++ [(config dm, command)]
    /\ (err = None <-> fst (sshRound (remote w) (config dm) command) = RunSucceeded output)
    /\ (err <> None -> output = "")
    /\ (forall failure captured,
           fst (sshRound (remote w) (config dm) command) = RunFailed failure captured ->
           exists msg,
             err = Some msg /\ occursIn command msg /\ occursIn failure msg
             /\ occursIn captured msg)
    /\ (forall failure,
           fst (sshRound (remote w) (config dm) command) = DialFailed failure ->
           exists msg,
             err = Some msg
             /\ occursIn (Host (config dm) ^^ ":" ^^ Port (config dm)) msg
             /\ occursIn failure msg).
Proof.
  unfold executeSSHCommand.
  destruct (sshRound (remote w) (config dm) command) as [[e|e|e se|out] r']; cbn [fst].
  - do 3 eexists. split; [reflexivity|]. repeat split; try discriminate; try congruence.
    intros failure [= <-]. eexists. split; [reflexivity|]. split.
    + apply occursIn_middle.
    + rewrite <- !append_assoc. apply occursIn_end.
  - do 3 eexists. split; [reflexivity|]. repeat split; try discriminate; congruence.
  - destruct (String.eqb se "") eqn:Ese; cbn [negb].
    + do 3 eexists. split; [reflexivity|]. repeat split; try discriminate; try congruence.
      intros failure captured [= <- <-]. eexists. split; [reflexivity|].
      split; [apply occursIn_middle|]. split.
      * rewrite <- !append_assoc. apply occursIn_end.
      * apply String.eqb_eq in Ese. rewrite Ese. apply occursIn_empty.
    + do 3 eexists. split; [reflexivity|]. repeat split; try discriminate; try congruence.
      intros failure captured [= <- <-]. eexists. split; [reflexivity|].
      split; [apply occursIn_middle|]. split.
      * apply (occursIn_after "command '"), (occursIn_after command),
          (occursIn_after "' failed: "). now exists "", (", stderr: " ^^ se).
      * rewrite <- !append_assoc. apply occursIn_end.
  - do 3 eexists. split; [reflexivity|]. repeat split; try discriminate; congruence.
Qed.

(** X10. Listing results.  A listing call leaves the global manager alone.
    When it returns an error, the slice it returns with it is the empty
    allocated one.  When it returns no error, its records are those parsed
    from the output of the structured listing, the last command it ran, and
    the raw listing before it was not blank. *)
Theorem listing_result_shape (dm : DockerManager) (w : World Transport) :
  exists containers err w',
    GetContainers sshRound dm w = Some ((containers, err), w')
    /\ dockerManager w' = dockerManager w
    /\ (err <> None -> containers = makeSlice [])
    /\ (err = None ->
        exists raw formattedOutput w2 w3,
          executeSSHCommand sshRound dm cmdDockerPs w2 = Some ((raw, None), w3)
          /\ strings.TrimSpace raw <> ""
          /\ executeSSHCommand sshRound dm cmdDockerPsFormat w3
             = Some ((formattedOutput, None), w')
          /\ parseContainers formattedOutput = Some containers
          /\ elems containers
             = flat_map listingLine (strings.Split formattedOutput newline)).
Proof.
  unfold GetContainers, bind, ret.
  next_gateway o1 e1 H1. destruct e1 as [c1|].
  { do 3 eexists. split; [reflexivity|]. repeat split; congruence. }
  next_gateway o2 e2 H2. destruct e2 as [c2|].
  { do 3 eexists. split; [reflexivity|]. repeat split; congruence. }
  next_gateway o3 e3 H3. destruct e3 as [c3|].
  { do 3 eexists. split; [reflexivity|]. repeat split; congruence. }
  destruct (String.eqb (strings.TrimSpace o3) "") eqn:Eraw.
  { do 3 eexists. split; [reflexivity|]. repeat split; congruence. }
  next_gateway o4 e4 H4. destruct e4 as [c4|].
  { do 3 eexists. split; [reflexivity|]. repeat split; congruence. }
  rewrite parseContainers_listingLine. cbn [orPanic ret].
  do 3 eexists. split; [reflexivity|]. split; [reflexivity|]. split; [congruence|].
  intros _. exists o3, o4. do 2 eexists. split; [exact H3|].
  split; [now apply String.eqb_neq|]. split; [exact H4|].
  split; [apply parseContainers_listingLine | now rewrite elems_extend].
Qed.

(** X11. Where a listing call stops.  After a presence probe that succeeded:
    a failed health probe ends the call with the daemon error, a failed raw
    listing with the listing error, a failed structured listing with the
    formatted-listing error; each error ends with the gateway's, and the
    failed command is the last one the call issued. *)
Theorem listing_stops_at_failure
        (dm : DockerManager) (w w1 : World Transport) (o1 : string) :
  executeSSHCommand sshRound dm cmdWhichDocker w = Some ((o1, None), w1) ->
  (forall o2 cause w2,
      executeSSHCommand sshRound dm cmdDockerInfo w1 = Some ((o2, Some cause), w2) ->
      GetContainers sshRound dm w
      = Some ((makeSlice [],
               Some ("Docker daemon is not running or permission denied: " ^^ cause)), w2)
      /\ issued w2 = issued w ++ [(config dm, cmdWhichDocker); (config dm, cmdDockerInfo)])
  /\ (forall o2 w2,
         executeSSHCommand sshRound dm cmdDockerInfo w1 = Some ((o2, None), w2) ->
         (forall o3 cause w3,
             executeSSHCommand sshRound dm cmdDockerPs w2 = Some ((o3, Some cause), w3) ->
             GetContainers sshRound dm w
             = Some ((makeSlice [], Some ("Docker ps command failed: " ^^ cause)), w3)
             /\ issued w3 = issued w ++ map (pair (config dm)) (firstn 3 listingCommands))
         /\ (forall raw w3 o4 cause w4,
                executeSSHCommand sshRound dm cmdDockerPs w2 = Some ((raw, None), w3) ->
                strings.TrimSpace raw <> "" ->
                executeSSHCommand sshRound dm cmdDockerPsFormat w3
                = Some ((o4, Some cause), w4) ->
                GetContainers sshRound dm w
                = Some ((makeSlice [],
                         Some ("Docker ps formatted command failed: " ^^ cause)), w4)
                /\ issued w4 = issued w ++ map (pair (config dm)) listingCommands)).
Proof.
  intros H1. pose proof (executeSSHCommand_world _ _ _ _ _ _ _ _ H1) as E1.
  split.
  - intros o2 cause w2 H2. pose proof (executeSSHCommand_world _ _ _ _ _ _ _ _ H2) as E2.
    split.
    + unfold GetContainers, bind. now rewrite H1, H2.
    + subst. simpl. now rewrite <- app_assoc.
  - intros o2 w2 H2. pose proof (executeSSHCommand_world _ _ _ _ _ _ _ _ H2) as E2.
    split.
    + intros o3 cause w3 H3. pose proof (executeSSHCommand_world _ _ _ _ _ _ _ _ H3) as E3.
      split.
      * unfold GetContainers, bind. now rewrite H1, H2, H3.
      * subst. simpl. now rewrite <- !app_assoc.
    + intros raw w3 o4 cause w4 H3 Hraw H4.
      pose proof (executeSSHCommand_world _ _ _ _ _ _ _ _ H3) as E3.
      pose proof (executeSSHCommand_world _ _ _ _ _ _ _ _ H4) as E4.
      split.
      * unfold GetContainers, bind. apply String.eqb_neq in Hraw.
        now rewrite H1, H2, H3, Hraw, H4.
      * subst. simpl. now rewrite <- !app_assoc.
Qed.


Lemma journalGrew_none (odm : option DockerManager) (k : nat) (w : World Transport) :
  journalGrew odm k w w.
Proof. exists []. rewrite app_nil_r. repeat split; [simpl; lia | constructor]. Qed.

Lemma journalGrew_commands (dm : DockerManager) (k : nat) (w w' : World Transport)
      (commands : list string) :
  issued w' = issued w ++ map (pair (config dm)) commands ->
  List.length commands <= k ->
  journalGrew (Some dm) k w w'.
Proof.
  intros Hi Hk. exists (map (pair (config dm)) commands).
  split; [exact Hi|]. split; [now rewrite length_map|].
  apply Forall_forall. intros entry Hin. apply in_map_iff in Hin as (c & <- & _).
  now destruct dm.
Qed.

Lemma GetContainers_journal (dm : DockerManager) (w : World Transport) :
  exists result w' commands,
    GetContainers sshRound dm w = Some (result, w')
    /\ dockerManager w' = dockerManager w
    /\ issued w' = issued w ++ map (pair (config dm)) commands
    /\ List.length commands <= 4.
Proof.
  unfold GetContainers, bind, ret.
  next_gateway o1 e1 H1. destruct e1 as [c1|].
  { exists (makeSlice [], Some ("Docker is not installed or not in PATH: " ^^ c1)).
    eexists. exists [cmdWhichDocker]. repeat split. simpl; lia. }
  next_gateway o2 e2 H2. destruct e2 as [c2|].
  { do 2 eexists. exists [cmdWhichDocker; cmdDockerInfo].
    split; [reflexivity|]. repeat split; simpl; [now rewrite <- app_assoc | lia]. }
  next_gateway o3 e3 H3. destruct e3 as [c3|].
  { do 2 eexists. exists [cmdWhichDocker; cmdDockerInfo; cmdDockerPs].
    split; [reflexivity|]. repeat split; simpl; [now rewrite <- !app_assoc | lia]. }
  destruct (String.eqb (strings.TrimSpace o3) "").
  { do 2 eexists. exists [cmdWhichDocker; cmdDockerInfo; cmdDockerPs].
    split; [reflexivity|]. repeat split; simpl; [now rewrite <- !app_assoc | lia]. }
  next_gateway o4 e4 H4. destruct e4 as [c4|].
  { do 2 eexists. exists listingCommands.
    split; [reflexivity|]. repeat split; simpl; [now rewrite <- !app_assoc | lia]. }
  rewrite parseContainers_listingLine. cbn [orPanic ret].
  do 2 eexists. exists listingCommands.
  split; [reflexivity|]. repeat split; simpl; [now rewrite <- !app_assoc | lia].
Qed.

Lemma LogContainers_journal (dm : DockerManager) (containerId : string)
      (w : World Transport) :
  exists result w' commands,
    LogContainers sshRound dm containerId w = Some (result, w')
    /\ dockerManager w' = dockerManager w
    /\ issued w' = issued w ++ map (pair (config dm)) commands
    /\ List.length commands <= 2.
Proof.
  unfold LogContainers, bind, ret.
  next_gateway o1 e1 H1. destruct e1 as [c1|].
  { do 2 eexists. exists [cmdWhichDocker]. split; [reflexivity|]. repeat split. simpl; lia. }
  next_gateway o2 e2 H2. destruct e2 as [c2|].
  { do 2 eexists. exists [cmdWhichDocker; cmdDockerLogs containerId].
    split; [reflexivity|]. repeat split; simpl; [now rewrite <- app_assoc | lia]. }
  rewrite parseLogs_logLines. cbn [orPanic ret].
  do 2 eexists. exists [cmdWhichDocker; cmdDockerLogs containerId].
  split; [reflexivity|]. repeat split; simpl; [now rewrite <- app_assoc | lia].
Qed.

(** What a lifecycle verb runs, with the reply of the handler. *)
Lemma containerActionHandler_known (dm : DockerManager) (r : Request) (w : World Transport)
      (command : string) :
  Method r = "POST" ->
  dockerManager w = Some dm ->
  lifecycleCommand (lookupVar (Vars r) "action") (lookupVar (Vars r) "id") = Some command ->
  exists output err,
    executeSSHCommand sshRound dm command w
    = Some ((output, err), afterCommand sshRound w dm command)
    /\ containerActionHandler sshRound r w
       = Some (actionReply err, afterCommand sshRound w dm command).
Proof.
  intros Hm Hdm Hcmd.
  destruct (executeSSHCommand_afterCommand Transport sshRound dm command w) as (o & e & H).
  exists o, e. split; [exact H|].
  unfold containerActionHandler. rewrite Hm.
  change (negb (String.eqb "POST" "POST")) with false. cbv iota.
  unfold bind at 1. unfold getDockerManager. cbv beta iota. rewrite Hdm. cbv beta iota zeta.
  unfold lifecycleCommand in Hcmd.
  unfold StartContainer, StopContainer, RestartContainer, RemoveContainer, bind, ret.
  assert (Hrun : forall c, Some c = Some command -> c = command) by congruence.
  destruct (String.eqb (lookupVar (Vars r) "action") "start").
  { rewrite (Hrun _ Hcmd). now rewrite H. }
  destruct (String.eqb (lookupVar (Vars r) "action") "stop").
  { rewrite (Hrun _ Hcmd). now rewrite H. }
  destruct (String.eqb (lookupVar (Vars r) "action") "restart").
  { rewrite (Hrun _ Hcmd). now rewrite H. }
  destruct (String.eqb (lookupVar (Vars r) "action") "remove"); [|discriminate].
  rewrite (Hrun _ Hcmd). now rewrite H.
Qed.

Lemma lifecycleCommand_knownAction (action containerID : string) :
  lifecycleCommand action containerID = None <-> knownAction action = false.
Proof.
  unfold lifecycleCommand, knownAction.
  destruct (String.eqb action "start"), (String.eqb action "stop"),
    (String.eqb action "restart"), (String.eqb action "remove");
    simpl; split; congruence.
Qed.

(** X13. Lifecycle requests.  A POST with one of the four verbs, on a
    configured manager, hands exactly one command to the gateway: [docker]
    followed by the verb ([rm -f] for remove) and the identifier of the
    route, as it is.  The reply reports success exactly when that command
    returned no error, and a failure reply carries the gateway's error. *)
Theorem action_request_runs_one_command
        (dm : DockerManager) (r : Request) (w : World Transport) (command : string) :
  Method r = "POST" ->
  dockerManager w = Some dm ->
  lifecycleCommand (lookupVar (Vars r) "action") (lookupVar (Vars r) "id") = Some command ->
  exists output err reply w',
    executeSSHCommand sshRound dm command w = Some ((output, err), w')
    /\ containerActionHandler sshRound r w = Some (reply, w')
    /\ issued w' = issued w ++ [(config dm, command)]
    /\ dockerManager w' = Some dm
    /\ (reportsSuccess reply = true <-> err = None)
    /\ (forall e, err = Some e -> replyField reply "error" = Some (JString e))
    /\ exists verb, command = "docker " ^^ verb ^^ " " ^^ lookupVar (Vars r) "id".
Proof.
  intros Hm Hdm Hcmd.
  destruct (containerActionHandler_known dm r w command Hm Hdm Hcmd) as (o & e & He & Hh).
  exists o, e, (actionReply e), (afterCommand sshRound w dm command).
  split; [exact He|]. split; [exact Hh|]. split; [reflexivity|]. split; [exact Hdm|].
  split; [destruct e; simpl; split; congruence|].
  split; [intros msg ->; reflexivity|].
  unfold lifecycleCommand in Hcmd.
  destruct (String.eqb (lookupVar (Vars r) "action") "start");
    [injection Hcmd as <-; now exists "start"|].
  destruct (String.eqb (lookupVar (Vars r) "action") "stop");
    [injection Hcmd as <-; now exists "stop"|].
  destruct (String.eqb (lookupVar (Vars r) "action") "restart");
    [injection Hcmd as <-; now exists "restart"|].
  destruct (String.eqb (lookupVar (Vars r) "action") "remove");
    [injection Hcmd as <-; now exists "rm -f" | discriminate].
Qed.

(** X14. What the request handlers keep.  The listing and lifecycle handlers
    never panic, the log handler panics exactly when no manager is
    configured; when they answer, the global manager is what it was and the
    commands added to the journal, at most 4, 1 and 2, all went out under the
    descriptor of that manager.  With no manager configured the listing and
    lifecycle handlers answer without any command. *)
Theorem request_handlers_keep_manager (r : Request) (w : World Transport) :
  (exists reply w',
      containersHandler sshRound r w = Some (reply, w')
      /\ dockerManager w' = dockerManager w
      /\ journalGrew (dockerManager w) 4 w w'
      /\ (dockerManager w = None -> w' = w /\ reportsSuccess reply = false))
  /\ (exists reply w',
         containerActionHandler sshRound r w = Some (reply, w')
         /\ dockerManager w' = dockerManager w
         /\ journalGrew (dockerManager w) 1 w w'
         /\ (dockerManager w = None -> w' = w /\ reportsSuccess reply = false))
  /\ (logsHandler sshRound r w = None <-> dockerManager w = None)
  /\ (forall reply w',
         logsHandler sshRound r w = Some (reply, w') ->
         dockerManager w' = dockerManager w
         /\ journalGrew (dockerManager w) 2 w w').
Proof.
  split; [|split; [|split]].
  - unfold containersHandler, bind, getDockerManager, ret.
    destruct (dockerManager w) as [dm|] eqn:Ed.
    + destruct (GetContainers_journal dm w) as ([cs e] & w' & cmds & Hg & Hm & Hi & Hk).
      rewrite Hg. exists (match e with
                          | Some msg => EncodeJSON [("success", JBool false);
                                                    ("error", JString msg);
                                                    ("containers", JContainers (makeSlice []))]
                          | None => EncodeJSON [("success", JBool true);
                                                ("containers", JContainers cs);
                                                ("count", JInt (len cs))]
                          end), w'.
      split; [now destruct e|]. split; [congruence|].
      split; [now apply (journalGrew_commands dm 4 w w' cmds) | discriminate].
    + do 2 eexists. split; [reflexivity|]. split; [exact Ed|].
      split; [apply journalGrew_none | intros _; now split].
  - destruct (String.eqb (Method r) "POST") eqn:Em.
    + destruct (dockerManager w) as [dm|] eqn:Ed.
      * destruct (lifecycleCommand (lookupVar (Vars r) "action") (lookupVar (Vars r) "id"))
          as [command|] eqn:Ec.
        -- apply String.eqb_eq in Em.
           destruct (containerActionHandler_known dm r w command Em Ed Ec)
             as (o & e & _ & Hh).
           rewrite Hh. do 2 eexists. split; [reflexivity|]. split; [exact Ed|].
           split; [|discriminate].
           apply (journalGrew_commands dm 1 w _ [command]); [reflexivity | simpl; lia].
        -- apply lifecycleCommand_knownAction in Ec. unfold knownAction in Ec.
           apply orb_false_elim in Ec as [Ec Hremove].
           apply orb_false_elim in Ec as [Ec Hrestart].
           apply orb_false_elim in Ec as [Hstart Hstop].
           unfold containerActionHandler, bind, getDockerManager, ret.
           rewrite Em. cbn. rewrite Ed, Hstart, Hstop, Hrestart, Hremove.
           do 2 eexists. split; [reflexivity|]. split; [exact Ed|].
           split; [apply journalGrew_none | discriminate].
      * unfold containerActionHandler, bind, getDockerManager, ret. rewrite Em. cbn.
        rewrite Ed. do 2 eexists. split; [reflexivity|]. split; [exact Ed|].
        split; [apply journalGrew_none | intros _; now split].
    + unfold containerActionHandler, ret. rewrite Em. cbn.
      do 2 eexists. split; [reflexivity|]. split; [reflexivity|].
      split; [apply journalGrew_none | intros _; now split].
  - unfold logsHandler, bind, getDockerManager, panic.
    destruct (dockerManager w) as [dm|] eqn:Ed; [|split; reflexivity].
    destruct (LogContainers_journal dm (lookupVar (Vars r) "id") w)
      as ([ls e] & w' & cmds & Hg & _). rewrite Hg.
    split; [destruct e; discriminate | discriminate].
  - intros reply w'. unfold logsHandler, bind, getDockerManager, panic.
    destruct (dockerManager w) as [dm|] eqn:Ed; [|discriminate].
    destruct (LogContainers_journal dm (lookupVar (Vars r) "id") w)
      as ([ls e] & w1 & cmds & Hg & Hm & Hi & Hk). rewrite Hg.
    assert (w' = w1 -> dockerManager w' = Some dm /\ journalGrew (Some dm) 2 w w') as Hw.
    { intros ->. split; [congruence|].
      now apply (journalGrew_commands dm 2 w w1 cmds). }
    destruct e; intros [= _ <-]; now apply Hw.
Qed.

(** X15. Effects of a configuration request.  A request that is not a POST,
    whose body does not decode, or that lacks host, user name or password is
    answered with a failure and changes nothing: the manager stays and no
    command is issued.  Any other request installs the posted descriptor as
    the manager before it checks it (the port is 22 when none is posted, the
    other fields are as posted), and the manager stays installed when a check
    fails: the answer is then the SSH failure after one command, or the
    docker failure after two; success comes after two. *)
Theorem config_request_effects (r : Request) (w : World Transport) :
  (configAcceptable r = false ->
   exists reply,
     configHandler sshRound r w = Some (reply, w) /\ reportsSuccess reply = false)
  /\ (configAcceptable r = true ->
      exists posted reply w' k,
        Body r = Some posted
        /\ configHandler sshRound r w = Some (reply, w')
        /\ dockerManager w' = Some {| config := installedConfig posted |}
        /\ Host (installedConfig posted) = Host posted
        /\ Username (installedConfig posted) = Username posted
        /\ Password (installedConfig posted) = Password posted
        /\ Port (installedConfig posted)
           = (if String.eqb (Port posted) "" then "22" else Port posted)
        /\ issued w' = issued w ++ map (pair (installedConfig posted))
                                      (firstn k [cmdSSHTest; cmdDockerVersion])
        /\ ((k = 1 /\ exists cause,
                reply = EncodeJSON [("success", JBool false);
                                    ("error", JString ("SSH connection failed: " ^^ cause))])
            \/ (k = 2 /\ exists cause,
                   reply = EncodeJSON [("success", JBool false);
                                       ("error",
                                        JString ("Docker is not available: " ^^ cause))])
            \/ (k = 2 /\ reportsSuccess reply = true))).
Proof.
  unfold configAcceptable, configHandler, bind, setDockerManager, ret.
  destruct (String.eqb (Method r) "POST"); cbn [negb andb];
    [|split; [intros _; eexists; split; reflexivity | discriminate]].
  destruct (Body r) as [posted|];
    [|split; [intros _; eexists; split; reflexivity | discriminate]].
  destruct (String.eqb (Host posted) ""); cbn [negb andb orb];
    [split; [intros _; eexists; split; reflexivity | discriminate]|].
  destruct (String.eqb (Username posted) ""); cbn [negb andb orb];
    [split; [intros _; eexists; split; reflexivity | discriminate]|].
  destruct (String.eqb (Password posted) ""); cbn [negb andb orb];
    [split; [intros _; eexists; split; reflexivity | discriminate]|].
  split; [discriminate|]. intros _. fold (installedConfig posted).
  assert (Hfields : Host (installedConfig posted) = Host posted
                    /\ Username (installedConfig posted) = Username posted
                    /\ Password (installedConfig posted) = Password posted
                    /\ Port (installedConfig posted)
                       = (if String.eqb (Port posted) "" then "22" else Port posted)).
  { unfold installedConfig. destruct (String.eqb (Port posted) ""); repeat split. }
  destruct Hfields as (Hh & Hu & Hp & Hport).
  exists posted.
  next_gateway o1 e1 H1. destruct e1 as [c1|].
  { do 2 eexists. exists 1. split; [reflexivity|]. split; [reflexivity|].
    split; [reflexivity|]. repeat (split; [assumption|]).
    split; [reflexivity|]. left. split; [reflexivity|]. now exists c1. }
  next_gateway o2 e2 H2. destruct e2 as [c2|].
  { do 2 eexists. exists 2. split; [reflexivity|]. split; [reflexivity|].
    split; [reflexivity|]. repeat (split; [assumption|]).
    split; [simpl; now rewrite <- app_assoc|].
    right. left. split; [reflexivity|]. now exists c2. }
  do 2 eexists. exists 2. split; [reflexivity|]. split; [reflexivity|].
  split; [reflexivity|]. repeat (split; [assumption|]).
  split; [simpl; now rewrite <- app_assoc|].
  right. right. split; reflexivity.
Qed.

(** X16. Shape of the listing and log replies.  A reply of the listing or
    log handler either reports failure, with an error text and an empty
    allocated container list, or reports success, with the records and a
    count that is their number and no error text. *)
Theorem listing_and_log_reply_shape (r : Request) (w : World Transport) :
  (forall reply w',
      containersHandler sshRound r w = Some (reply, w') ->
      (reportsSuccess reply = false
       /\ replyField reply "containers" = Some (JContainers (makeSlice []))
       /\ exists e, replyField reply "error" = Some (JString e))
      \/ (reportsSuccess reply = true
          /\ replyField reply "error" = None
          /\ exists cs,
              replyField reply "containers" = Some (JContainers cs)
              /\ replyField reply "count" = Some (JInt (len cs))))
  /\ (forall reply w',
         logsHandler sshRound r w = Some (reply, w') ->
         (reportsSuccess reply = false
          /\ replyField reply "containers" = Some (JContainers (makeSlice []))
          /\ exists e, replyField reply "error" = Some (JString e))
         \/ (reportsSuccess reply = true
             /\ replyField reply "error" = None
             /\ exists ls,
                 replyField reply "containers" = Some (JLogs ls)
                 /\ replyField reply "count" = Some (JInt (len ls)))).
Proof.
  split; intros reply w'.
  - unfold containersHandler, bind, getDockerManager, ret.
    destruct (dockerManager w) as [dm|].
    + destruct (GetContainers sshRound dm w) as [[[cs [e|]] w1]|]; intros [= <- _].
      * left. repeat split. now exists e.
      * right. repeat split. now exists cs.
    + intros [= <- _]. left. repeat split. eexists. reflexivity.
  - unfold logsHandler, bind, getDockerManager, ret, panic.
    destruct (dockerManager w) as [dm|]; [|discriminate].
    destruct (LogContainers sshRound dm (lookupVar (Vars r) "id") w)
      as [[[ls [e|]] w1]|]; intros [= <- _].
    + left. repeat split. now exists e.
    + right. repeat split. now exists ls.
Qed.

End ServiceProperties.

(** ** The further properties on the example hosts *)

Lemma listing_stops_at_failure_witness :
  exists w2,
    GetContainers hostDaemonDown exampleManager (startWorld (Some exampleManager))
    = Some ((makeSlice [],
             Some ("Docker daemon is not running or permission denied: "
                   ^^ "command 'docker info' failed: Process exited with status 1"
                   ^^ ", stderr: Cannot connect to the Docker daemon at "
                   ^^ "unix:///var/run/docker.sock")), w2)
    /\ issued w2 = issued (startWorld (Some exampleManager))
                   ++ [(exampleConfig, cmdWhichDocker); (exampleConfig, cmdDockerInfo)].
Proof.
  edestruct (listing_stops_at_failure unit hostDaemonDown exampleManager
                                      (startWorld (Some exampleManager)))
    as [Hhealth _]; [vm_compute; reflexivity|].
  eexists. eapply Hhealth. vm_compute. reflexivity.
Defined.

Lemma action_request_runs_one_command_witness :
  exists reply w',
    containerActionHandler hostNoContainers (actionRequest "POST" "abc123" "remove")
                           (startWorld (Some exampleManager))
    = Some (reply, w')
    /\ issued w' = [(exampleConfig, "docker rm -f abc123")]
    /\ reportsSuccess reply = true.
Proof.
  destruct (action_request_runs_one_command unit hostNoContainers exampleManager
              (actionRequest "POST" "abc123" "remove") (startWorld (Some exampleManager))
              "docker rm -f abc123" eq_refl eq_refl eq_refl)
    as (output & err & reply & w' & Hrun & Hreply & Hissued & _ & Hsuccess & _).
  exists reply, w'. split; [exact Hreply|]. split; [exact Hissued|].
  apply Hsuccess. vm_compute in Hrun. congruence.
Defined.

Lemma config_request_effects_witness :
  exists reply w',
    configHandler hostWithoutDocker
                  {| Method := "POST"; Body := Some postedConfig; Vars := [] |}
                  (startWorld (Some exampleManager))
    = Some (reply, w')
    /\ dockerManager w'
       = Some {| config := {| Host := "10.0.0.5"; Port := "22";
                              Username := "admin"; Password := "pw" |} |}
    /\ reportsSuccess reply = false.
Proof.
  destruct (proj2 (config_request_effects unit hostWithoutDocker
                     {| Method := "POST"; Body := Some postedConfig; Vars := [] |}
                     (startWorld (Some exampleManager))) eq_refl)
    as (posted & reply & w' & k & Hbody & Hrun & Hmanager & _).
  exists reply, w'. split; [exact Hrun|].
  injection Hbody as <-. split; [exact Hmanager|].
  vm_compute in Hrun. injection Hrun as <- _. reflexivity.
Defined.
